(** * SemanticLibrary: the book downloader (Python/download.py)

    A shallow embedding of the batch ingestion script: source resolution
    ([match_downloader], [get_id]), the per-source fetch strategies
    ([_download_text], [download], [extract_pdf]), the PDF text pipeline
    ([convert_pdf_to_text]), the record store ([store_in_db], the [books]
    table) and the batch loop ([process_input]).

    Conventions.
    - A Python [str] is a [string]; its characters are the code points
      below 256.  [bytes] are [string]s too.
    - Python [int] is [Z]; a Python [float] is a [spec_float].
    - A value decoded from JSON (a request of the batch, the metadata of
      a volume) is a [jvalue].
    - An exception is a value of [exn]; code that may raise returns a
      [result].
    - The outside world (HTTP, pdfminer, [shutil.which], the ocrmypdf
      subprocess, the command line, the text SQLite makes of a real) is a
      record [World] of functions; every call to it that the script makes
      is recorded in a trace of [event]s. *)

From Stdlib Require Import ZArith List Ascii String Bool Lia.
From Stdlib Require Import Floats.SpecFloat.
From stdpp Require Import base option list gmap strings pretty.

Local Open Scope string_scope.
Local Open Scope Z_scope.
Local Open Scope list_scope.

(** ** Python string primitives *)

Module PyStr.

Definition code (c : ascii) : N := N_of_ascii c.

Definition in_range (lo hi : N) (c : ascii) : bool :=
  ((lo <=? code c) && (code c <=? hi))%N.

(** [str.isspace] on one character (used by [str.strip]). *)
Definition is_space (c : ascii) : bool :=
  in_range 9 13 c || in_range 28 32 c
  || (code c =? 133)%N || (code c =? 160)%N.

(** The blanks [int()] skips around a literal: the C-locale blanks, and
    the two non-ASCII blanks it first rewrites to a space. *)
Definition is_int_space (c : ascii) : bool :=
  in_range 9 13 c || (code c =? 32)%N
  || (code c =? 133)%N || (code c =? 160)%N.

Definition is_digit (c : ascii) : bool := in_range 48 57 c.

Definition digit_val (c : ascii) : Z := Z.of_N (code c) - 48.

(** [\w] of the [re] module on a [str] pattern: [isalnum] or [_]. *)
Definition is_word (c : ascii) : bool :=
  is_digit c || in_range 65 90 c || in_range 97 122 c || (code c =? 95)%N
  || (code c =? 170)%N || (code c =? 178)%N || (code c =? 179)%N
  || (code c =? 181)%N || (code c =? 185)%N || (code c =? 186)%N
  || in_range 188 190 c || in_range 192 214 c || in_range 216 246 c
  || in_range 248 255 c.

Definition lower_char (c : ascii) : ascii :=
  if in_range 65 90 c
     || (in_range 192 222 c && negb (code c =? 215)%N)
  then ascii_of_N (code c + 32) else c.

(** [s.lower()] *)
Fixpoint lower (s : string) : string :=
  match s with
  | EmptyString => EmptyString
  | String c s' => String (lower_char c) (lower s')
  end.

(** [s.startswith(p)] *)
Definition startswith (p s : string) : bool := String.prefix p s.

(** [sub in s] *)
Fixpoint contains (sub s : string) : bool :=
  startswith sub s
  || match s with
     | EmptyString => false
     | String _ s' => contains sub s'
     end.

(** [s.split(sep)] for a non-empty [sep]: scan from the left, cut at
    every occurrence, resume after it.  [skip] counts the characters of
    the separator still to be passed over.  The pair is the piece being
    built and the pieces after it. *)
Fixpoint split_go (sep s : string) (skip : nat) : string * list string :=
  match s with
  | EmptyString => (EmptyString, [])
  | String c s' =>
      match skip with
      | S k => split_go sep s' k
      | O =>
          if startswith sep s
          then (EmptyString,
                let '(p, ps) := split_go sep s' (Nat.pred (String.length sep))
                in p :: ps)
          else let '(p, ps) := split_go sep s' O in (String c p, ps)
      end
  end.

Definition split (sep s : string) : list string :=
  let '(p, ps) := split_go sep s O in p :: ps.

Fixpoint lstrip (s : string) : string :=
  match s with
  | String c s' => if is_space c then lstrip s' else s
  | EmptyString => EmptyString
  end.

(** [s.strip()] *)
Definition strip (s : string) : string :=
  String.rev (lstrip (String.rev (lstrip s))).

(** Truth value of a [str]. *)
Definition nonempty (s : string) : bool :=
  match s with EmptyString => false | _ => true end.

Fixpoint int_lstrip (s : string) : string :=
  match s with
  | String c s' => if is_int_space c then int_lstrip s' else s
  | EmptyString => EmptyString
  end.

(** Digits with single underscores between them; [prev] tells whether
    the previous character was a digit. *)
Fixpoint int_digits (s : string) (acc : Z) (prev : bool) : option Z :=
  match s with
  | EmptyString => if prev then Some acc else None
  | String c s' =>
      if is_digit c then int_digits s' (10 * acc + digit_val c) true
      else if (code c =? 95)%N
           then (if prev then int_digits s' acc false else None)
           else None
  end.

(** [sys.int_info.default_max_str_digits]: the most digits [int()]
    converts. *)
Definition int_max_str_digits : Z := 4300.

(** The number of digits of a literal; sign, blanks and underscores do
    not count, leading zeros do. *)
Fixpoint count_digits (s : string) : Z :=
  match s with
  | EmptyString => 0
  | String c s' => if is_digit c then 1 + count_digits s' else count_digits s'
  end.

(** [int(s)]: [None] stands for [ValueError], raised for a malformed
    literal and for one of more than 4300 digits. *)
Definition int (s : string) : option Z :=
  let body := String.rev (int_lstrip (String.rev (int_lstrip s))) in
  if int_max_str_digits <? count_digits body then None
  else
    match body with
    | String "+" d => int_digits d 0 false
    | String "-" d => Z.opp <$> int_digits d 0 false
    | _ => int_digits body 0 false
    end.

(** [str(n)] for an [int], as an f-string renders it. *)
Definition of_int (n : Z) : string := pretty n.

End PyStr.

(** ** The three regular expressions of [GoogleBooksDownloader.get_id]

    They only use literals, [\b], and greedy [[^...]+] runs, one of which
    is the capture group.  [re_search] is the backtracking search of the
    [re] module restricted to such patterns. *)

Module Re.

Inductive atom :=
| Lit (c : ascii)                          (* a literal character *)
| WordB                                    (* \b *)
| NotIn (cs : list ascii) (capture : bool) (* [^cs]+ , maybe in a group *).

Definition pattern := list atom.

Fixpoint lits (s : string) : pattern :=
  match s with
  | EmptyString => []
  | String c s' => Lit c :: lits s'
  end.

Definition mem (c : ascii) (cs : list ascii) : bool :=
  existsb (Ascii.eqb c) cs.

Definition wordy (o : option ascii) : bool :=
  match o with Some c => PyStr.is_word c | None => false end.

Definition head (s : string) : option ascii :=
  match s with String c _ => Some c | EmptyString => None end.

(** [\b] between [prev] and the rest [s]. *)
Definition boundary (prev : option ascii) (s : string) : bool :=
  xorb (wordy prev) (wordy (head s)).

(** Match [p] at the start of [s]; [prev] is the character before [s].
    The result is the text of group 1 ([None] inside if the pattern has
    no group).  A run takes as much as it can and gives back one
    character at a time. *)
Fixpoint match_here (p : pattern) (prev : option ascii) (s : string)
  : option (option string) :=
  match p with
  | [] => Some None
  | Lit c :: p' =>
      match s with
      | String c' s' =>
          if Ascii.eqb c c' then match_here p' (Some c') s' else None
      | EmptyString => None
      end
  | WordB :: p' => if boundary prev s then match_here p' prev s else None
  | NotIn cs cap :: p' =>
      (fix run (s : string) (taken : string) : option (option string) :=
         match s with
         | String c s' =>
             if mem c cs then None
             else
               let taken' := taken +:+ String c EmptyString in
               match run s' taken' with
               | Some g => Some g
               | None =>
                   match match_here p' (Some c) s' with
                   | Some g => Some (if cap then Some taken' else g)
                   | None => None
                   end
               end
         | EmptyString => None
         end) s EmptyString
  end.

(** [re.search(p, s)]: the leftmost start that matches. *)
Fixpoint search_from (p : pattern) (prev : option ascii) (s : string)
  : option (option string) :=
  match match_here p prev s with
  | Some g => Some g
  | None =>
      match s with
      | String c s' => search_from p (Some c) s'
      | EmptyString => None
      end
  end.

Definition re_search (p : pattern) (s : string) : option (option string) :=
  search_from p None s.

End Re.

(** ** Exceptions and fallible code *)

Inductive exn :=
| IndexError
| AttributeError
| OverflowError
| TypeError
| ProgrammingError     (* sqlite3.ProgrammingError *)
| RequestException     (* requests.RequestException and its subclasses *)
| OtherException.      (* any other subclass of Exception *)

Inductive result (A : Type) :=
| Ok (a : A)
| Raise (e : exn).
Arguments Ok {A} a.
Arguments Raise {A} e.

Global Instance result_ret : MRet result := λ A a, Ok a.
Global Instance result_bind : MBind result := λ A B f m,
  match m with Ok a => f a | Raise e => Raise e end.
Global Instance result_fmap : FMap result := λ A B f m,
  match m with Ok a => Ok (f a) | Raise e => Raise e end.

(** [l[i]] *)
Definition index {A} (l : list A) (i : nat) : result A :=
  match l !! i with Some x => Ok x | None => Raise IndexError end.

(** ** Decoded JSON

    What [json.loads] and [r.json()] yield.  A [dict] is the list of its
    items (its keys are distinct); [None] is [JNull]; a number is an
    [int] or a [float]. *)
#[warnings="-register-all"] Inductive jvalue :=
| JNull
| JBool (b : bool)
| JNum (n : Z)
| JFloat (f : spec_float)
| JStr (s : string)
| JList (l : list jvalue)
| JDict (items : list (string * jvalue)).

(** Truth value of a decoded value: [nan] and the infinities are true,
    both zeros false. *)
Definition truthy (v : jvalue) : bool :=
  match v with
  | JNull => false
  | JBool b => b
  | JNum n => negb (n =? 0)%Z
  | JFloat f => match f with S754_zero _ => false | _ => true end
  | JStr s => PyStr.nonempty s
  | JList l => match l with [] => false | _ => true end
  | JDict items => match items with [] => false | _ => true end
  end.

Fixpoint assoc (k : string) (items : list (string * jvalue)) : jvalue :=
  match items with
  | [] => JNull
  | (k', v) :: rest => if String.eqb k k' then v else assoc k rest
  end.

(** [v.get(k)]: only a [dict] has the method. *)
Definition py_get (v : jvalue) (k : string) : result jvalue :=
  match v with
  | JDict items => Ok (assoc k items)
  | _ => Raise AttributeError
  end.

(** [v or {}] *)
Definition or_empty (v : jvalue) : jvalue :=
  if truthy v then v else JDict [].

(** [sub in v] for a [str] [sub]: a substring of a [str], an element of a
    [list], a key of a [dict]; another value cannot be searched. *)
Definition py_in (sub : string) (v : jvalue) : result bool :=
  match v with
  | JStr s => Ok (PyStr.contains sub s)
  | JList l =>
      Ok (existsb (λ x, match x with
                        | JStr s => String.eqb sub s
                        | _ => false
                        end) l)
  | JDict items => Ok (existsb (λ kv, String.eqb sub kv.1) items)
  | _ => Raise TypeError
  end.

(** [v.split(sep)]: only a [str] has the method. *)
Definition py_split (sep : string) (v : jvalue) : result (list string) :=
  match v with
  | JStr s => Ok (PyStr.split sep s)
  | _ => Raise AttributeError
  end.

(** ** Source identifier resolver *)

(** A source identifier: an [int] for Gutenberg, a [str] for the others. *)
Inductive pyid :=
| IdInt (n : Z)
| IdStr (s : string).

Global Instance pyid_eq_dec : EqDecision pyid.
Proof. solve_decision. Defined.

Inductive downloader_class :=
| GutenbergDownloader
| InternetArchiveDownloader
| GoogleBooksDownloader.

Global Instance downloader_class_eq_dec : EqDecision downloader_class.
Proof. solve_decision. Defined.

(** [(title_id, user_title, author, category)]: the last three are
    whatever the request holds. *)
Abbreviation book_tuple := (pyid * jvalue * jvalue * jvalue)%type.

(** An instance: the class and its two attributes. *)
Record downloader := {
  cls : downloader_class;
  self_id : option pyid;
  self_book : option book_tuple;
}.

(** [__init__] *)
Definition new (c : downloader_class) : downloader :=
  {| cls := c; self_id := None; self_book := None |}.

Definition set_id (d : downloader) (i : pyid) : downloader :=
  {| cls := cls d; self_id := Some i; self_book := self_book d |}.

Definition set_book (d : downloader) (b : book_tuple) : downloader :=
  {| cls := cls d; self_id := self_id d; self_book := Some b |}.

Definition domain (c : downloader_class) : string :=
  match c with
  | GutenbergDownloader => "gutenberg.org"
  | InternetArchiveDownloader => "archive.org"
  | GoogleBooksDownloader => "books.google."
  end.

(** The class attribute [name]: the identifier column of the class. *)
Definition name (c : downloader_class) : string :=
  match c with
  | GutenbergDownloader => "gutenberg_id"
  | InternetArchiveDownloader => "ia_title_id"
  | GoogleBooksDownloader => "gb_title_id"
  end.

Definition DOWNLOADERS : list downloader_class :=
  [GutenbergDownloader; InternetArchiveDownloader; GoogleBooksDownloader].

(** [match_downloader]: [url] is whatever the request holds under
    [url]. *)
Fixpoint match_downloader (classes : list downloader_class) (url : jvalue)
  : result (option downloader) :=
  match classes with
  | [] => Ok None
  | c :: rest =>
      found ← py_in (domain c) url;
      if found : bool then Ok (Some (new c))
      else match_downloader rest url
  end.

Definition patterns : list Re.pattern :=
  [ (Re.lits "/books/edition/"
       ++ [Re.NotIn ["/"%char] false; Re.Lit "/";
           Re.NotIn ["?"%char; "/"%char] true])%list;
    [Re.WordB; Re.Lit "i"; Re.Lit "d"; Re.Lit "="; Re.NotIn ["&"%char] true];
    (Re.lits "/books?id=" ++ [Re.NotIn ["&"%char] true])%list ].

(** [match.group(1)]; every pattern above has its group, so the inner
    [None] does not occur. *)
Definition group1 (m : option string) : string := default EmptyString m.

Fixpoint first_match (ps : list Re.pattern) (url : string) : option string :=
  match ps with
  | [] => None
  | p :: rest =>
      match Re.re_search p url with
      | Some m => Some (group1 m)
      | None => first_match rest url
      end
  end.

(** [get_id] returns the instance as the call leaves it and the value
    returned.  [re.search] takes a [str] only. *)
Definition get_id (self : downloader) (url : jvalue)
  : result (downloader * option pyid) :=
  match cls self with
  | GutenbergDownloader =>
      found ← py_in "/ebooks/" url;
      if negb found then Ok (self, None)
      else
        pieces ← py_split "/ebooks/" url;
        tail ← index pieces 1;
        num ← index (PyStr.split "?" tail) 0;
        match PyStr.int num with
        | None => Ok (self, None)                     (* except ValueError *)
        | Some n => Ok (set_id self (IdInt n), Some (IdInt n))
        end
  | InternetArchiveDownloader =>
      found ← py_in "/details/" url;
      if negb found then Ok (self, None)
      else
        pieces ← py_split "/details/" url;
        tail ← index pieces 1;
        seg ← index (PyStr.split "/" tail) 0;
        Ok (set_id self (IdStr seg), Some (IdStr seg))
  | GoogleBooksDownloader =>
      match url with
      | JStr url =>
          match first_match patterns url with
          | Some g => Ok (set_id self (IdStr g), Some (IdStr g))
          | None => Ok (self, None)
          end
      | _ => Raise TypeError
      end
  end.

(** ** The outside world *)

(** What [SESSION.get] returns. *)
Record response := {
  status_code : Z;
  content : string;              (* the body, as bytes *)
  text : string;                 (* the body, decoded *)
  json : result jvalue;          (* [r.json()] *)
}.

Record World := {
  (** [SESSION.get(url, ...)]: the response, or the exception raised *)
  SESSION_get : string → result response;
  (** pdfminer's [extract_text(BytesIO(data))] *)
  extract_text : string → result string;
  (** [shutil.which(cmd) is not None] *)
  which : string → bool;
  (** [subprocess.run([... "ocrmypdf" ...], input=data, check=True).stdout] *)
  ocrmypdf : string → result string;
  (** the global set from [--api-key] *)
  api_key : option string;
  (** [urllib.parse.quote] *)
  quote : string → string;
  (** the text SQLite stores for a real in a column of type [TEXT] *)
  sqlite_text : spec_float → string;
}.

Inductive level := INFO | WARNING | ERROR.

Inductive logarg :=
| AId (i : pyid)
| AStr (s : string)
| AInt (n : Z)
| AExn (e : exn).

Inductive event :=
| EvGet (url : string) (timeout : Z)        (* SESSION.get *)
| EvExtractText (data : string)             (* pdfminer extract_text *)
| EvWhich (cmd : string)                    (* shutil.which *)
| EvOcr (data : string)                     (* the ocrmypdf subprocess *)
| EvSelect (column : string) (i : pyid)     (* SELECT 1 FROM books WHERE .. *)
| EvUpsert (column : string) (i : pyid)     (* INSERT .. ON CONFLICT .. *)
| EvCommit                                  (* connection.commit() *)
| EvSleep (secs : Z)                        (* time.sleep *)
| EvLog (lvl : level) (fmt : string) (args : list logarg).

(** Code that acts on the world: its result and what it did, in order. *)
Definition Eff (A : Type) : Type := result A * list event.

Global Instance Eff_ret : MRet Eff := λ A a, (Ok a, []).
Global Instance Eff_bind : MBind Eff := λ A B f m,
  match m with
  | (Ok a, t) => let '(r, t') := f a in (r, (t ++ t')%list)
  | (Raise e, t) => (Raise e, t)
  end.

Definition emit (e : event) : Eff unit := (Ok tt, [e]).
Definition liftR {A} (r : result A) : Eff A := (r, []).
Definition log_ (l : level) (fmt : string) (args : list logarg) : Eff unit :=
  emit (EvLog l fmt args).

Definition fmt_id (i : pyid) : string :=
  match i with IdInt n => PyStr.of_int n | IdStr s => s end.

(** ** Fetch strategies *)

Section Pipeline.

Variable w : World.

(** [Downloaders._download_text] *)
Fixpoint _download_text (urls : list string)
  : Eff (option response * option string) :=
  match urls with
  | [] => mret (None, None)
  | url :: rest =>
      emit (EvGet url 20);;
      match SESSION_get w url with
      | Ok r =>
          if (status_code r =? 200)%Z then mret (Some r, Some url)
          else _download_text rest
      | Raise e =>
          log_ WARNING "Failed to fetch %s: %s" [AStr url; AExn e];;
          _download_text rest
      end
  end.

(** [Downloaders._get_json] *)
Definition _get_json (url : string) : Eff (option jvalue * option string) :=
  emit (EvGet url 20);;
  match SESSION_get w url with
  | Ok r =>
      if (status_code r =? 200)%Z then
        match json r with
        | Ok v => mret (Some v, Some url)
        | Raise e =>
            log_ WARNING "Failed to fetch JSON %s: %s" [AStr url; AExn e];;
            mret (None, None)
        end
      else mret (None, None)
  | Raise e =>
      log_ WARNING "Failed to fetch JSON %s: %s" [AStr url; AExn e];;
      mret (None, None)
  end.

(** ** Text extraction pipeline *)

(** [text and text.strip()] *)
Definition has_text (t : string) : bool :=
  PyStr.nonempty t && PyStr.nonempty (PyStr.strip t).

Definition extract_text_from_pdf (pdf : response) : Eff (option string) :=
  emit (EvExtractText (content pdf));;
  match extract_text w (content pdf) with
  | Ok t => if has_text t then mret (Some t) else mret None
  | Raise _ => log_ ERROR "pdfminer failed" [];; mret None
  end.

Definition extract_ocr_from_pdf (pdf : response) : Eff (option string) :=
  emit (EvWhich "tesseract");;
  if negb (which w "tesseract") then
    log_ INFO "Tesseract not found — skipping OCR" [];; mret None
  else
    emit (EvWhich "gswin64c");;
    gs ← (if which w "gswin64c" then mret true
          else emit (EvWhich "gs");; mret (which w "gs"));
    if negb gs then
      log_ INFO "Ghostscript not found — skipping OCR" [];; mret None
    else
      emit (EvOcr (content pdf));;
      match ocrmypdf w (content pdf) with
      | Ok out =>
          emit (EvExtractText out);;
          match extract_text w out with
          | Ok t =>
              if has_text t then mret (Some t)
              else log_ WARNING "OCR produced no text" [];; mret None
          | Raise _ => log_ ERROR "OCR failed" [];; mret None
          end
      | Raise _ => log_ ERROR "OCR failed" [];; mret None
      end.

Definition convert_pdf_to_text (pdf : response) : Eff (option string) :=
  t ← extract_text_from_pdf pdf;
  match t with
  | Some t => mret (Some t)
  | None => extract_ocr_from_pdf pdf
  end.

(** [extract_pdf].  A link that is not a [str] is rendered by requests
    with [str()] and rejected for want of a scheme, which is a
    [RequestException]. *)
Definition extract_pdf (meta : jvalue) : Eff (option string * option string) :=
  access ← liftR (py_get meta "accessInfo");
  pdf_meta ← liftR (py_get (or_empty access) "pdf");
  let book_meta := or_empty pdf_meta in
  available ← liftR (py_get book_meta "isAvailable");
  if negb (truthy available) then
    log_ INFO "No downloadable PDF for this volume" [];; mret (None, None)
  else
    download_url ← liftR (py_get book_meta "downloadLink");
    if negb (truthy download_url) then
      log_ WARNING "PDF marked available but no downloadLink present" [];;
      mret (None, None)
    else
      match download_url with
      | JStr link =>
          emit (EvGet link 60);;
          match SESSION_get w link with
          | Ok pdf =>
              let size := Z.of_nat (String.length (content pdf)) in
              log_ INFO "Google PDF status=%s size=%s bytes"
                [AInt (status_code pdf); AInt size];;
              if negb (status_code pdf =? 200)%Z || (size <? 50000)%Z then
                log_ WARNING
                  "Likely CAPTCHA or error page from Google — skipping" [];;
                mret (None, None)
              else
                t ← convert_pdf_to_text pdf;
                mret (t, Some link)
          | Raise RequestException =>
              log_ ERROR "PDF download error" [];; mret (None, None)
          | Raise e => liftR (Raise e)
          end
      | _ => log_ ERROR "PDF download error" [];; mret (None, None)
      end.

(** [bool(r)] of a response is [r.ok]: no 4xx or 5xx status. *)
Definition ok (r : response) : bool :=
  negb ((400 <=? status_code r)%Z && (status_code r <? 600)%Z).

(** The plain-text tail shared by the Gutenberg and Internet Archive
    [download]. *)
Definition first_text (urls : list string)
  : Eff (option string * option string) :=
  '(r, url) ← _download_text urls;
  match r with
  | Some r =>
      if ok r && PyStr.nonempty (PyStr.strip (text r))
      then mret (Some (text r), url)
      else mret (None, None)
  | None => mret (None, None)
  end.

(** The candidate URLs of a plain-text source, in the order tried. *)
Definition candidates (c : downloader_class) (i : pyid) : list string :=
  let s := fmt_id i in
  match c with
  | GutenbergDownloader =>
      [ "https://www.gutenberg.org/files/" +:+ s +:+ "/" +:+ s +:+ "-0.txt";
        "https://www.gutenberg.org/files/" +:+ s +:+ "/" +:+ s +:+ ".txt";
        "https://www.gutenberg.org/ebooks/" +:+ s +:+ ".txt.utf-8" ]
  | InternetArchiveDownloader =>
      [ "https://archive.org/download/" +:+ s +:+ "/" +:+ s +:+ "_djvu.txt";
        "https://archive.org/download/" +:+ s +:+ "/" +:+ s +:+ ".txt" ]
  | GoogleBooksDownloader => []
  end.

Definition volume_url (i : pyid) : string :=
  let url := "https://www.googleapis.com/books/v1/volumes/" +:+ fmt_id i in
  match api_key w with
  | Some k => if PyStr.nonempty k then url +:+ "?key=" +:+ quote w k else url
  | None => url
  end.

(** [download] *)
Definition download (self : downloader) : Eff (option string * option string) :=
  match self_id self with
  | None => mret (None, None)
  | Some i =>
      match cls self with
      | GutenbergDownloader => first_text (candidates GutenbergDownloader i)
      | InternetArchiveDownloader =>
          first_text (candidates InternetArchiveDownloader i)
      | GoogleBooksDownloader =>
          '(meta, _) ← _get_json (volume_url i);
          match meta with
          | Some m => if truthy m then extract_pdf m else mret (None, None)
          | None => mret (None, None)
          end
      end
  end.

End Pipeline.

(** ** The record store: the [books] table *)

(** One row.  SQLite columns are dynamically typed, so an identifier
    column holds whatever was bound to it: an [int] for [gutenberg_id], a
    [str] for the two others. *)
Record row := {
  rowid : Z;                       (* id INTEGER PRIMARY KEY *)
  gutenberg_id : option pyid;
  ia_title_id : option pyid;
  gb_title_id : option pyid;
  author : option string;
  title : option string;
  category : option string;
  source_url : option string;
  content_ : option string;        (* the column [content] *)
}.

Abbreviation store := (list row).

(** [init_database] on a fresh file: the table exists and is empty. *)
Definition init_database : store := [].

(** The identifier column of a class. *)
Definition key_of (c : downloader_class) (r : row) : option pyid :=
  match c with
  | GutenbergDownloader => gutenberg_id r
  | InternetArchiveDownloader => ia_title_id r
  | GoogleBooksDownloader => gb_title_id r
  end.

Definition has_key (c : downloader_class) (i : pyid) (r : row) : bool :=
  bool_decide (key_of c r = Some i).

(** [SELECT 1 FROM books WHERE <column> = ?] followed by [fetchone()]. *)
Definition exists_ (c : downloader_class) (i : pyid) (db : store) : bool :=
  existsb (has_key c i) db.

(** The values of the [VALUES (?,?,?,?,?,?)] tuple after the identifier,
    as the columns store them: text, or [NULL]. *)
Record fields := {
  f_author : option string;
  f_title : option string;
  f_category : option string;
  f_source_url : option string;
  f_content : string;
}.

(** [DO UPDATE SET title=..., category=..., source_url=..., content=...,
    author=...] on the conflicting row. *)
Definition overwrite (f : fields) (r : row) : row :=
  {| rowid := rowid r;
     gutenberg_id := gutenberg_id r;
     ia_title_id := ia_title_id r;
     gb_title_id := gb_title_id r;
     author := f_author f;
     title := f_title f;
     category := f_category f;
     source_url := f_source_url f;
     content_ := Some (f_content f) |}.

(** The row an [INSERT] creates: only the column of the class is set
    among the identifiers. *)
Definition new_row (n : Z) (c : downloader_class) (i : pyid) (f : fields) : row :=
  {| rowid := n;
     gutenberg_id := if decide (c = GutenbergDownloader) then Some i else None;
     ia_title_id := if decide (c = InternetArchiveDownloader) then Some i else None;
     gb_title_id := if decide (c = GoogleBooksDownloader) then Some i else None;
     author := f_author f;
     title := f_title f;
     category := f_category f;
     source_url := f_source_url f;
     content_ := Some (f_content f) |}.

(** The rowid SQLite gives a new row: one more than the largest in use,
    1 in an empty table. *)
Definition next_rowid (db : store) : Z :=
  match db with
  | [] => 1
  | r :: rest => 1 + foldr Z.max (rowid r) (rowid <$> rest)
  end.

(** [INSERT INTO books (...) VALUES (...) ON CONFLICT(<column>) DO UPDATE
    SET ...]. *)
Definition upsert (c : downloader_class) (i : pyid) (f : fields) (db : store)
  : store :=
  if exists_ c i db
  then (λ r, if has_key c i r then overwrite f r else r) <$> db
  else (db ++ [new_row (next_rowid db) c i f])%list.

(** Binding an identifier to a statement: sqlite3 refuses an [int] that
    does not fit 64 bits. *)
Definition bind_param (i : pyid) : result unit :=
  match i with
  | IdInt n =>
      if ((- 2 ^ 63 <=? n) && (n <? 2 ^ 63))%Z then Ok tt
      else Raise OverflowError
  | IdStr _ => Ok tt
  end.

(** What sqlite3 hands to SQLite for a parameter. *)
Inductive sqlval :=
| SqlNull
| SqlInteger (n : Z)
| SqlReal (f : spec_float)
| SqlText (s : string).

(** Binding any decoded value: a [bool] is an [int], [nan] is bound as
    [NULL], and there is no adapter for a [list] or a [dict]. *)
Definition bind_value (v : jvalue) : result sqlval :=
  match v with
  | JNull => Ok SqlNull
  | JBool b => Ok (SqlInteger (if b then 1 else 0))
  | JNum n =>
      if ((- 2 ^ 63 <=? n) && (n <? 2 ^ 63))%Z then Ok (SqlInteger n)
      else Raise OverflowError
  | JFloat f =>
      Ok (match f with S754_nan => SqlNull | _ => SqlReal f end)
  | JStr s => Ok (SqlText s)
  | JList _ | JDict _ => Raise ProgrammingError
  end.

(** What a column declared [TEXT] stores: a number is turned into
    text. *)
Definition text_affinity (w : World) (v : sqlval) : option string :=
  match v with
  | SqlNull => None
  | SqlInteger n => Some (PyStr.of_int n)
  | SqlReal f => Some (sqlite_text w f)
  | SqlText s => Some s
  end.

(** The parameters after the identifier, bound in the order of the
    tuple [(title_id, author, user_title, category, url, text)]. *)
Definition bind_fields (w : World) (author user_title category : jvalue)
    (url : option string) (text : string) : result fields :=
  a ← bind_value author;
  t ← bind_value user_title;
  c ← bind_value category;
  Ok {| f_author := text_affinity w a; f_title := text_affinity w t;
        f_category := text_affinity w c; f_source_url := url;
        f_content := text |}.

(** Code that also reads and writes the table. *)
Definition M (A : Type) : Type := store → Eff A * store.

Global Instance M_ret : MRet M := λ A a db, (mret a, db).
Global Instance M_bind : MBind M := λ A B f m db,
  match m db with
  | ((Ok a, t), db') =>
      let '((r, t'), db'') := f a db' in ((r, (t ++ t')%list), db'')
  | ((Raise e, t), db') => ((Raise e, t), db')
  end.

Definition liftE {A} (m : Eff A) : M A := λ db, (m, db).

(** [cursor.execute("SELECT 1 ...", (source_id,))] and [fetchone()] *)
Definition select (c : downloader_class) (i : pyid) : M bool := λ db,
  match bind_param i with
  | Ok _ => ((Ok (exists_ c i db), [EvSelect (name c) i]), db)
  | Raise e => ((Raise e, []), db)
  end.

(** [cursor.execute("INSERT ...", (title_id, author, user_title,
    category, url, text))]: nothing is written when a parameter cannot be
    bound. *)
Definition execute_upsert (w : World) (c : downloader_class) (title_id : pyid)
    (author user_title category : jvalue) (url : option string)
    (text : string) : M unit := λ db,
  match bind_param title_id;;
        bind_fields w author user_title category url text with
  | Ok f => ((Ok tt, [EvUpsert (name c) title_id]), upsert c title_id f db)
  | Raise e => ((Raise e, []), db)
  end.

(** ** Batch coordinator *)

(** An element of [data]: any decoded value; a request is a [dict]. *)
Abbreviation item := jvalue.

Section Coordinator.

Variable w : World.

Definition store_in_db (d : downloader) : M unit :=
  match self_book d with
  | None => liftE (liftR (Raise TypeError))
  | Some (title_id, user_title, author, category) =>
      liftE (log_ INFO "Downloading %s (%s)" [AId title_id; AStr (domain (cls d))]);;
      '(text, url) ← liftE (download w d);
      match text with
      | Some text =>
          if PyStr.nonempty text then
            execute_upsert w (cls d) title_id author user_title category
              url text;;
            liftE (emit EvCommit);;
            liftE (log_ INFO "Stored %s successfully" [AId title_id])
          else liftE (log_ WARNING "Failed to store %s" [AId title_id])
      | None => liftE (log_ WARNING "Failed to store %s" [AId title_id])
      end
  end.

(** The keys of a [dict] in lower case; where two keys become one, the
    later value stays. *)
Definition lower_items (items : list (string * jvalue)) : gmap string jvalue :=
  fold_left (λ m kv, <[PyStr.lower kv.1 := kv.2]> m) items ∅.

(** [{k.lower(): v for k, v in item.items()}]: only a [dict] has
    [items]. *)
Definition lower_keys (it : item) : result (gmap string jvalue) :=
  match it with
  | JDict items => Ok (lower_items items)
  | _ => Raise AttributeError
  end.

(** [lower.get(k)]: a missing key gives [None], as a null does. *)
Definition get (lower : gmap string jvalue) (k : string) : jvalue :=
  default JNull (lower !! k).

(** Truth value of a [str] or [None]. *)
Definition truthy_str (o : option string) : bool :=
  match o with Some s => PyStr.nonempty s | None => false end.

(** [v or d] for a [str] [d] *)
Definition or_default (v : jvalue) (d : string) : jvalue :=
  if truthy v then v else JStr d.

(** The body of the loop of [process_input], from the normalised
    record on; [continue] is returning. *)
Definition process_record (total idx : Z) (lower : gmap string jvalue)
  : M unit :=
  let url := get lower "url" in
  let book_title := get lower "title" in
  let author := or_default (get lower "author") "Unknown" in
  let category := or_default (get lower "category") "Uncategorized" in
  if negb (truthy url) || negb (truthy book_title) then mret tt
  else
    downloader ← liftE (liftR (match_downloader DOWNLOADERS url));
    match downloader with
    | None => mret tt
    | Some d =>
        '(d, source_id) ← liftE (liftR (get_id d url));
        match source_id with
        | None => mret tt
        | Some source_id =>
            found ← select (cls d) source_id;
            if found : bool then
              liftE (log_ INFO "Skipping %s (already in database)"
                       [AId source_id])
            else
              liftE (log_ INFO "Progress %s/%s" [AInt idx; AInt total]);;
              store_in_db
                (set_book d (source_id, book_title, author, category));;
              liftE (emit (EvSleep 1))
        end
    end.

Definition process_item (total idx : Z) (it : item) : M unit :=
  lower ← liftE (liftR (lower_keys it));
  process_record total idx lower.

Fixpoint process_from (total idx : Z) (data : list item) : M unit :=
  match data with
  | [] => mret tt
  | it :: rest =>
      process_item total idx it;;
      process_from total (idx + 1) rest
  end.

(** [process_input(data, connection, cursor)], for the list [main]
    decodes from its input. *)
Definition process_input (data : list item) : M unit :=
  process_from (Z.of_nat (length data)) 1 data.

End Coordinator.

(** ** Startup: [check_dependencies] *)

(** What the interpreter can import. *)
Record Host := {
  (** [import m] succeeds *)
  importable : string → bool;
}.

(** How [check_dependencies] ends: it returns, or [sys.exit(code)]. *)
Inductive startup :=
| Ready
| Exit (code : Z).

(** The first [try]: [missing_required] after it. *)
Definition check_pdfminer (h : Host) : list string :=
  if importable h "pdfminer.high_level" then []
  else ["pdfminer.six (pip install pdfminer.six)"].

(** The second [try]: both imports come before the session is built; the
    result is what is appended to [missing_required] and whether
    [SESSION] was set. *)
Definition check_requests (h : Host) : list string * bool :=
  if importable h "requests.adapters" && importable h "urllib3.util.retry"
  then ([], true)
  else (["requests (pip install requests)"], false).

(** [for dep in deps: log(lvl, "  - %s", dep)] *)
Fixpoint log_each (l : level) (deps : list string) : Eff unit :=
  match deps with
  | [] => mret tt
  | dep :: rest => log_ l "  - %s" [AStr dep];; log_each l rest
  end.

(** [check_dependencies]: how it ends and whether [SESSION] was set. *)
Definition check_dependencies (h : Host) (w : World) : Eff (startup * bool) :=
  let missing_required := check_pdfminer h in
  let '(req, session) := check_requests h in
  let missing_required := missing_required ++ req in
  emit (EvWhich "tesseract");;
  let missing_optional :=
    if which w "tesseract" then []
    else ["tesseract (OCR will be unavailable)"] in
  emit (EvWhich "gswin64c");;
  gs ← (if which w "gswin64c" then mret true
        else emit (EvWhich "gs");; mret (which w "gs"));
  let missing_optional :=
    if gs : bool then missing_optional
    else missing_optional ++ ["ghostscript (OCR will be unavailable)"] in
  let missing_optional :=
    if importable h "ocrmypdf" then missing_optional
    else missing_optional
         ++ ["ocrmypdf (pip install ocrmypdf - OCR will be unavailable)"] in
  match missing_required with
  | _ :: _ =>
      log_ ERROR "Missing required dependencies:" [];;
      log_each ERROR missing_required;;
      mret (Exit 1, session)
  | [] =>
      match missing_optional with
      | _ :: _ =>
          log_ WARNING "Missing optional dependencies:" [];;
          log_each WARNING missing_optional;;
          log_ WARNING
            "PDF text extraction will work, but OCR fallback will be unavailable."
            [];;
          mret (Ready, session)
      | [] => mret (Ready, session)
      end
  end.

(** ** Vocabulary of the statements *)

(** *** Reading a trace *)

(** The URLs requested, in order. *)
Fixpoint gets (t : list event) : list string :=
  match t with
  | [] => []
  | EvGet u _ :: t' => u :: gets t'
  | _ :: t' => gets t'
  end.

(** The inputs of the OCR runs, in order. *)
Fixpoint ocr_runs (t : list event) : list string :=
  match t with
  | [] => []
  | EvOcr d :: t' => d :: ocr_runs t'
  | _ :: t' => ocr_runs t'
  end.

(** The inputs handed to pdfminer, in order. *)
Fixpoint extractions (t : list event) : list string :=
  match t with
  | [] => []
  | EvExtractText d :: t' => d :: extractions t'
  | _ :: t' => extractions t'
  end.

(** An event of the text extraction pipeline. *)
Definition is_extraction (e : event) : bool :=
  match e with
  | EvExtractText _ | EvOcr _ | EvWhich _ => true
  | _ => false
  end.

(** The start of a store attempt: the first thing [store_in_db] does. *)
Definition is_attempt (e : event) : bool :=
  match e with
  | EvLog INFO fmt _ => String.eqb fmt "Downloading %s (%s)"
  | _ => false
  end.

Definition is_sleep (e : event) : bool :=
  match e with EvSleep _ => true | _ => false end.

(** What a store attempt does outside the script: an HTTP request, a step
    of the text pipeline, a statement that writes, a commit. *)
Definition is_activity (e : event) : bool :=
  match e with
  | EvGet _ _ | EvExtractText _ | EvWhich _ | EvOcr _ | EvUpsert _ _
  | EvCommit => true
  | _ => false
  end.

(** The pauses of a trace, in order. *)
Fixpoint sleeps (t : list event) : list Z :=
  match t with
  | [] => []
  | EvSleep n :: t' => n :: sleeps t'
  | _ :: t' => sleeps t'
  end.

(** Pacing of a trace.  [pending] tells that a store attempt has started
    and no pause has followed it yet.  A store attempt may only start when
    none is pending; requests, text extraction and writes only happen
    within a store attempt; a pause lasts 1 and only follows a store
    attempt.  The result is [None] when the trace breaks one of these
    rules, else whether an attempt is pending at the end. *)
Fixpoint pacing (pending : bool) (t : list event) : option bool :=
  match t with
  | [] => Some pending
  | e :: t' =>
      if is_attempt e then (if pending then None else pacing true t')
      else if is_activity e then (if pending then pacing true t' else None)
      else
        match e with
        | EvSleep n => if pending && (n =? 1) then pacing false t' else None
        | _ => pacing pending t'
        end
  end.

(** Neither the start of a store attempt nor a pause. *)
Definition quiet (t : list event) : Prop :=
  forallb (λ e, negb (is_attempt e) && negb (is_sleep e)) t = true.

(** *** Resolution *)

(** The text an identifier is read from: the piece after the first [sep],
    up to the first [stop]. *)
Definition id_segment (sep stop url : string) : option string :=
  tail ← PyStr.split sep url !! 1%nat; PyStr.split stop tail !! 0%nat.

(** The URL has the shape its source reads an identifier from. *)
Definition matches_pattern (c : downloader_class) (url : string) : bool :=
  match c with
  | GutenbergDownloader =>
      PyStr.contains "/ebooks/" url
      && bool_decide (is_Some (id_segment "/ebooks/" "?" url ≫= PyStr.int))
  | InternetArchiveDownloader => PyStr.contains "/details/" url
  | GoogleBooksDownloader =>
      existsb (λ p, bool_decide (is_Some (Re.re_search p url))) patterns
  end.

(** *** Fetching *)

(** The request for [url] is answered with status 200. *)
Definition is200 (w : World) (url : string) : bool :=
  match SESSION_get w url with
  | Ok r => status_code r =? 200
  | Raise _ => false
  end.

(** The request for [url] is answered with status 200 and a body that is
    not blank. *)
Definition good (w : World) (url : string) : bool :=
  match SESSION_get w url with
  | Ok r => (status_code r =? 200) && PyStr.nonempty (PyStr.strip (text r))
  | Raise _ => false
  end.

(** The first candidate answered with status 200 and a body that is not
    blank is what the fetch returns. *)
Definition returns_first_good (w : World) (urls : list string) : Prop :=
  ∀ u r, find (good w) urls = Some u → SESSION_get w u = Ok r →
         (first_text w urls).1 = Ok (Some (text r), Some u).

(** *** Extraction *)

(** Both programs OCR needs are installed. *)
Definition ocr_capable (w : World) : bool :=
  which w "tesseract" && (which w "gswin64c" || which w "gs").

(** What structural extraction yields: text that is not blank, or
    nothing. *)
Definition structural (w : World) (data : string) : option string :=
  match extract_text w data with
  | Ok t => if has_text t then Some t else None
  | Raise _ => None
  end.

(** *** The store *)

(** The non-null values of an identifier column. *)
Definition column (c : downloader_class) (db : store) : list pyid :=
  omap (key_of c) db.

(** No identifier column holds a non-null value twice. *)
Definition unique_ids (db : store) : Prop :=
  ∀ c, NoDup (column c db).

(** A sequence of upserts. *)
Definition upserts (ops : list (downloader_class * pyid * fields)) (db : store)
  : store :=
  fold_left (λ db '(c, i, f), upsert c i f db) ops db.

(** [db'] has every identifier [db] has. *)
Definition extends (db db' : store) : Prop :=
  ∀ c i, exists_ c i db = true → exists_ c i db' = true.

(** *** The loop body *)

(** What the loop body decides before it touches the table: the request
    is dropped ([None]) or goes on with an instance and its book. *)
Definition plan (lower : gmap string jvalue)
  : result (option (downloader * book_tuple)) :=
  let url := get lower "url" in
  let book_title := get lower "title" in
  if negb (truthy url) || negb (truthy book_title) then Ok None
  else
    match match_downloader DOWNLOADERS url with
    | Ok None => Ok None
    | Ok (Some d) =>
        match get_id d url with
        | Ok (d', Some sid) =>
            Ok (Some (d', (sid, book_title,
                           or_default (get lower "author") "Unknown",
                           or_default (get lower "category") "Uncategorized")))
        | Ok (_, None) => Ok None
        | Raise e => Raise e
        end
    | Raise e => Raise e
    end.

(** The descriptive columns a book is stored with. *)
Definition fields_of (w : World) (b : book_tuple) (url : option string)
    (text : string) : result fields :=
  let '(_, user_title, author, category) := b in
  bind_fields w author user_title category url text.

(** The events of a request from the [SELECT] to the call of [download]. *)
Definition attempt_prefix (total idx : Z) (d : downloader) (sid : pyid)
  : list event :=
  [EvSelect (name (cls d)) sid;
   EvLog INFO "Progress %s/%s" [AInt idx; AInt total];
   EvLog INFO "Downloading %s (%s)" [AId sid; AStr (domain (cls d))]].

(** The events of a request found in the table. *)
Definition skip_trace (d : downloader) (sid : pyid) : list event :=
  [EvSelect (name (cls d)) sid;
   EvLog INFO "Skipping %s (already in database)" [AId sid]].

(** The record without the keys that normalise to [k]. *)
Definition without (k : string) (it : item) : item :=
  match it with
  | JDict items =>
      JDict (List.filter (λ kv, negb (String.eqb (PyStr.lower kv.1) k)) items)
  | _ => it
  end.

(** A request the table has nothing more to gain from: it is dropped, or
    its identifier is in the table, or its fetch yields no text. *)
Definition settled (w : World) (lower : gmap string jvalue)
    (db : store) : Prop :=
  match plan lower with
  | Ok (Some (d, b)) =>
      bind_param b.1.1.1 = Ok tt
      ∧ (exists_ (cls d) b.1.1.1 db = true
         ∨ match (download w d).1 with
           | Ok (Some text, _) => PyStr.nonempty text = false
           | Ok (None, _) => True
           | Raise _ => False
           end)
  | Ok None => True
  | Raise _ => False
  end.

(** *** Vocabulary of the further properties *)

(** [c] occurs in [s]. *)
Fixpoint has_char (c : ascii) (s : string) : bool :=
  match s with
  | EmptyString => false
  | String c' s' => Ascii.eqb c c' || has_char c s'
  end.

(** Every character of [s] satisfies [P]. *)
Fixpoint all_chars (P : ascii → bool) (s : string) : bool :=
  match s with
  | EmptyString => true
  | String c s' => P c && all_chars P s'
  end.

(** The character before the end of [a], or [prev] before an empty [a]. *)
Fixpoint last_char (prev : option ascii) (a : string) : option ascii :=
  match a with
  | EmptyString => prev
  | String c a' => last_char (Some c) a'
  end.

(** [t] is empty or starts with [c]. *)
Definition empty_or_starts (c : ascii) (t : string) : bool :=
  match t with
  | EmptyString => true
  | String c' _ => Ascii.eqb c c'
  end.

(** The identifier has the type its source gives it. *)
Definition id_typed (c : downloader_class) (i : pyid) : bool :=
  match c, i with
  | GutenbergDownloader, IdInt _ => true
  | InternetArchiveDownloader, IdStr _ => true
  | GoogleBooksDownloader, IdStr _ => true
  | _, _ => false
  end.


(** A row as [process_input] writes it: one identifier, of the type its
    source gives it, the URL the text came from, and content that is not
    blank. *)
Definition one_identifier (r : row) : bool :=
  match gutenberg_id r, ia_title_id r, gb_title_id r with
  | Some (IdInt _), None, None => true
  | None, Some (IdStr _), None => true
  | None, None, Some (IdStr _) => true
  | _, _, _ => false
  end.

Definition complete_row (r : row) : bool :=
  one_identifier r
  && truthy_str (source_url r)
  && match content_ r with
     | Some t => PyStr.nonempty (PyStr.strip t)
     | None => false
     end.


(** The warning a start without OCR ends with. *)
Definition ocr_warning : event :=
  EvLog WARNING
    "PDF text extraction will work, but OCR fallback will be unavailable." [].

(** The record with every key in lower case. *)
Definition lowered (it : item) : item :=
  match it with
  | JDict items => JDict ((λ kv, (PyStr.lower kv.1, kv.2)) <$> items)
  | _ => it
  end.

(** The packages the script cannot run without can be imported. *)
Definition required_ok (h : Host) : bool :=
  importable h "pdfminer.high_level"
  && importable h "requests.adapters" && importable h "urllib3.util.retry".

(** The trace holds the warning that OCR will be unavailable. *)
Definition warns_ocr (t : list event) : bool :=
  existsb (λ e, match e with
                | EvLog WARNING fmt [] =>
                    String.eqb fmt
                      "PDF text extraction will work, but OCR fallback will be unavailable."
                | _ => false
                end) t.

(** The trace holds an error line. *)
Definition logs_error (t : list event) : bool :=
  existsb (λ e, match e with EvLog ERROR _ _ => true | _ => false end) t.

(** ** Scenarios *)

Module Scenario.

Definition resp (st : Z) (body : string) : response :=
  {| status_code := st; content := body; text := body;
     json := Raise OtherException |}.

Definition resp_json (v : jvalue) : response :=
  {| status_code := 200; content := ""; text := ""; json := Ok v |}.

(** A host without network, pdfminer results or OCR programs. *)
Definition offline : World :=
  {| SESSION_get := λ _, Raise RequestException;
     extract_text := λ _, Raise OtherException;
     which := λ _, false;
     ocrmypdf := λ _, Raise OtherException;
     api_key := None;
     quote := λ s, s;
     sqlite_text := λ _, "" |}.

Definition with_get (f : string → result response) (w : World) : World :=
  {| SESSION_get := f;
     extract_text := extract_text w;
     which := which w;
     ocrmypdf := ocrmypdf w;
     api_key := api_key w;
     quote := quote w;
     sqlite_text := sqlite_text w |}.

Definition pride_0 := "https://www.gutenberg.org/files/1342/1342-0.txt".
Definition pride_1 := "https://www.gutenberg.org/files/1342/1342.txt".
Definition pride_text := "It is a truth universally acknowledged".

(** Every URL answers 200; the first Gutenberg candidate of book 1342
    with a blank body, the others with text. *)
Definition blank_first : World :=
  with_get (λ u, if String.eqb u pride_0 then Ok (resp 200 "  ")
                 else Ok (resp 200 pride_text)) offline.

(** The first candidate of book 1342 is missing, the second is there. *)
Definition second_hit : World :=
  with_get (λ u, if String.eqb u pride_0 then Ok (resp 404 "not found")
                 else if String.eqb u pride_1 then Ok (resp 200 pride_text)
                 else Raise RequestException) offline.

Definition pride : downloader :=
  {| cls := GutenbergDownloader; self_id := Some (IdInt 1342);
     self_book := Some (IdInt 1342, JStr "Pride and Prejudice",
                        JStr "Unknown", JStr "Uncategorized") |}.

(** The metadata of a volume whose PDF is not available. *)
Definition meta_unavailable : jvalue :=
  JDict [("kind", JStr "books#volume");
         ("accessInfo",
          JDict [("pdf", JDict [("isAvailable", JBool false)])])].

(** The metadata of a volume with a PDF link. *)
Definition meta_link : jvalue :=
  JDict [("accessInfo",
          JDict [("pdf", JDict [("isAvailable", JBool true);
                                ("downloadLink", JStr "https://books.example/pdf")])])].

Definition volume := "https://www.googleapis.com/books/v1/volumes/XyZ".

Definition google_unavailable : World :=
  with_get (λ u, if String.eqb u volume then Ok (resp_json meta_unavailable)
                 else Raise RequestException) offline.

(** The PDF link answers 200 with a page of a few bytes. *)
Definition google_captcha : World :=
  with_get (λ u, if String.eqb u volume then Ok (resp_json meta_link)
                 else Ok (resp 200 "<html>captcha</html>")) offline.

(** A body of exactly 50,000 bytes. *)
Definition big_body : string := N.iter 50000 (String "x"%char) "".

(** The PDF link answers 200 with 50,000 bytes; pdfminer finds text. *)
Definition google_pdf : World :=
  {| SESSION_get := λ u, if String.eqb u volume then Ok (resp_json meta_link)
                         else Ok (resp 200 big_body);
     extract_text := λ _, Ok "Call me Ishmael.";
     which := λ _, false;
     ocrmypdf := λ _, Raise OtherException;
     api_key := None;
     quote := λ s, s;
     sqlite_text := λ _, "" |}.

(** pdfminer finds nothing in the original and text in what OCR made of
    it; both OCR programs are installed. *)
Definition scanned : World :=
  {| SESSION_get := λ _, Raise RequestException;
     extract_text := λ d, if String.eqb d "ocr output" then Ok "Call me Ishmael."
                          else Ok "  ";
     which := λ c, negb (String.eqb c "gswin64c");
     ocrmypdf := λ _, Ok "ocr output";
     api_key := None;
     quote := λ s, s;
     sqlite_text := λ _, "" |}.

Definition xyz : downloader :=
  {| cls := GoogleBooksDownloader; self_id := Some (IdStr "XyZ");
     self_book := Some (IdStr "XyZ", JStr "A Volume", JStr "Unknown",
                        JStr "Uncategorized") |}.

Definition pride_row : row :=
  {| rowid := 1; gutenberg_id := Some (IdInt 1342); ia_title_id := None;
     gb_title_id := None; author := Some "Jane Austen";
     title := Some "Pride and Prejudice"; category := Some "Novel";
     source_url := Some pride_1; content_ := Some pride_text |}.

Definition first_edition : fields :=
  {| f_author := Some "J. Austen"; f_title := Some "Pride and Prejudice";
     f_category := Some "Uncategorized"; f_source_url := Some pride_0;
     f_content := pride_text |}.

Definition second_edition : fields :=
  {| f_author := Some "Jane Austen";
     f_title := Some "Pride and Prejudice (2nd ed.)";
     f_category := Some "Novel"; f_source_url := Some pride_1;
     f_content := "It is a truth" |}.

Definition two_upserts : list (downloader_class * pyid * fields) :=
  [(GutenbergDownloader, IdInt 1342, first_edition);
   (GutenbergDownloader, IdInt 1342, second_edition)].

Definition pride_request : gmap string jvalue :=
  {[ "url" := JStr "https://www.gutenberg.org/ebooks/1342";
     "title" := JStr "Pride and Prejudice";
     "author" := JStr "" ]}.

Definition pride_item : item :=
  JDict [("URL", JStr "https://www.gutenberg.org/ebooks/1342");
         ("Title", JStr "Pride and Prejudice");
         ("Author", JStr "")].

End Scenario.

(** ** Further scenarios *)

Module Scenario2.

(** Everything can be imported. *)
Definition full_host : Host := {| importable := λ _, true |}.

(** [ocrmypdf] is not installed. *)
Definition no_ocrmypdf : Host :=
  {| importable := λ m, negb (String.eqb m "ocrmypdf") |}.

(** pdfminer is not installed. *)
Definition no_pdfminer : Host :=
  {| importable := λ m, negb (String.eqb m "pdfminer.high_level") |}.


End Scenario2.

(** ** Tactics *)

(** One case analysis on what the next step of a computation inspects. *)
Ltac eff_step :=
  match goal with
  | |- context [match ?x with _ => _ end] =>
      match type of x with
      | result _ => destruct x as [?|[]] eqn:?
      | jvalue => destruct x eqn:?
      | bool => destruct x eqn:?
      | list _ => destruct x eqn:?
      end
  | |- context [if ?x then _ else _] => destruct x eqn:?
  end.

(** Unfold the plumbing of [M] and [Eff], leaving [download] folded. *)
Ltac msimpl :=
  repeat (progress (cbv beta iota delta
                      [mbind mret M_bind M_ret Eff_bind Eff_ret liftE liftR
                       select execute_upsert log_ emit store_in_db];
                    cbn -[download])).

(** Turn [a +:+ R], for a literal [a], into the characters of [a] in
    front of [R]. *)
Ltac expose_app R :=
  match goal with
  | |- context [?a +:+ R] =>
      let t := eval cbv beta iota delta [String.append] in (a +:+ R) in
      change (a +:+ R) with t
  end.

(** Every way the host can be equipped. *)
Ltac startup_cases h w :=
  unfold check_dependencies, check_pdfminer, check_requests, required_ok,
    ocr_capable;
  destruct (importable h "pdfminer.high_level");
  destruct (importable h "requests.adapters");
  destruct (importable h "urllib3.util.retry");
  destruct (importable h "ocrmypdf");
  destruct (which w "tesseract");
  destruct (which w "gswin64c");
  destruct (which w "gs").


(** ** Sanity checks of the primitives *)

Example split_ex1 :
  PyStr.split "/ebooks/" "https://www.gutenberg.org/ebooks/1342?x=1"
  = ["https://www.gutenberg.org"; "1342?x=1"].
Proof. reflexivity. Qed.

Example split_ex2 : PyStr.split "aa" "aaa" = [""; "a"].
Proof. reflexivity. Qed.

Example split_ex3 : PyStr.split "/" "a//b/" = ["a"; ""; "b"; ""].
Proof. reflexivity. Qed.

Example int_ex :
  PyStr.int " 1_342 " = Some 1342 /\ PyStr.int "-07" = Some (-7)
  /\ PyStr.int "12a" = None /\ PyStr.int "" = None /\ PyStr.int "1__2" = None
  /\ PyStr.int "+" = None.
Proof. repeat split; reflexivity. Qed.

Example of_int_ex : PyStr.of_int 1342 = "1342" /\ PyStr.of_int (-5) = "-5".
Proof. split; reflexivity. Qed.

Example get_id_ex1 :
  snd <$> get_id (new GutenbergDownloader)
            (JStr "https://www.gutenberg.org/ebooks/1342")
  = Ok (Some (IdInt 1342)).
Proof. reflexivity. Qed.

Example get_id_ex2 :
  snd <$> get_id (new InternetArchiveDownloader)
            (JStr "https://archive.org/details/alice/page/n5")
  = Ok (Some (IdStr "alice")).
Proof. reflexivity. Qed.

Example get_id_ex3 :
  snd <$> get_id (new GoogleBooksDownloader)
            (JStr "https://books.google.com/books/edition/Some_Title/AbC12?hl=en")
  = Ok (Some (IdStr "AbC12"))
  /\ snd <$> get_id (new GoogleBooksDownloader)
            (JStr "https://books.google.com/books?id=XyZ&printsec=frontcover")
  = Ok (Some (IdStr "XyZ"))
  /\ snd <$> get_id (new GoogleBooksDownloader)
            (JStr "https://books.google.com/books?vid=XyZ")
  = Ok None.
Proof. repeat split; reflexivity. Qed.

(** A request whose [url] is not a [str]: a number cannot be searched, a
    list is searched for an element, and has no [split]. *)
Example get_id_ex4 :
  match_downloader DOWNLOADERS (JNum 5) = Raise TypeError
  /\ match_downloader DOWNLOADERS (JList [JStr "archive.org"])
     = Ok (Some (new InternetArchiveDownloader))
  /\ get_id (new InternetArchiveDownloader) (JList [JStr "archive.org"])
     = Ok (new InternetArchiveDownloader, None)
  /\ get_id (new InternetArchiveDownloader)
       (JList [JStr "archive.org"; JStr "/details/"])
     = Raise AttributeError
  /\ get_id (new GoogleBooksDownloader) (JList [JStr "books.google."])
     = Raise TypeError.
Proof. repeat split; reflexivity. Qed.

(** What the columns of type [TEXT] store for a bound value. *)
Example bind_fields_ex w :
  bind_fields w (JNum 7) (JFloat S754_nan) (JBool true) None "text"
  = Ok {| f_author := Some "7"; f_title := None; f_category := Some "1";
          f_source_url := None; f_content := "text" |}
  /\ bind_fields w (JStr "a") (JList [JStr "t"]) (JNum (2 ^ 63)) None "text"
     = Raise ProgrammingError
  /\ bind_fields w (JNum (2 ^ 63)) (JList [JStr "t"]) (JStr "c") None "text"
     = Raise OverflowError.
Proof. repeat split; reflexivity. Qed.

(** ** Source identifier resolver *)

Lemma split_head sep s : ∃ p ps, PyStr.split sep s = p :: ps.
Proof.
  unfold PyStr.split. destruct (PyStr.split_go sep s 0) as [p ps]. eauto.
Qed.

Lemma split_first sep s : ∃ p, PyStr.split sep s !! 0%nat = Some p.
Proof. destruct (split_head sep s) as (p & ps & ->). eauto. Qed.

(** Where the separator occurs, the split has a second piece. *)
Lemma split_go_second sep s :
  sep ≠ EmptyString → PyStr.contains sep s = true →
  (PyStr.split_go sep s 0).2 ≠ [].
Proof.
  intros Hsep. induction s as [|c s IH]; intros H.
  - destruct sep; [done|]. discriminate.
  - cbn [PyStr.split_go]. cbn [PyStr.contains] in H.
    destruct (PyStr.startswith sep (String c s)) eqn:E.
    + cbn. clear IH. by destruct (PyStr.split_go sep s _).
    + specialize (IH H). destruct (PyStr.split_go sep s 0). simpl in *. done.
Qed.

Lemma split_second sep s :
  sep ≠ EmptyString → PyStr.contains sep s = true →
  ∃ tail, PyStr.split sep s !! 1%nat = Some tail.
Proof.
  intros Hsep Hc. pose proof (split_go_second sep s Hsep Hc) as H.
  unfold PyStr.split.
  destruct (PyStr.split_go sep s 0) as [p [|q ps]]; [done|].
  simpl. eauto.
Qed.

(** On a [str], [get_id] returns: no identifier and the instance as it
    was, or an identifier and the instance holding it. *)
Lemma get_id_str_cases self url :
  get_id self (JStr url) = Ok (self, None)
  ∨ ∃ i, get_id self (JStr url) = Ok (set_id self i, Some i).
Proof.
  unfold get_id. destruct (cls self); cbn [py_in py_split mbind result_bind].
  - destruct (PyStr.contains "/ebooks/" url) eqn:E; simpl; [|by left].
    destruct (split_second "/ebooks/" url) as [tail Ht]; [done|done|].
    unfold index. rewrite Ht. simpl.
    destruct (split_first "?" tail) as [p Hp]. rewrite Hp. simpl.
    destruct (PyStr.int p); eauto.
  - destruct (PyStr.contains "/details/" url) eqn:E; simpl; [|by left].
    destruct (split_second "/details/" url) as [tail Ht]; [done|done|].
    unfold index. rewrite Ht. simpl.
    destruct (split_first "/" tail) as [p Hp]. rewrite Hp. simpl. eauto.
  - destruct (first_match patterns url); eauto.
Qed.


(** X1.  [get_id] raises on no URL, for any source: the index [1] is
    guarded by the [in] test, the index [0] always exists, and
    [ValueError] is caught. *)
Lemma get_id_never_raises self url : ∃ r, get_id self (JStr url) = Ok r.
Proof. destruct (get_id_str_cases self url) as [->|[i ->]]; eauto. Qed.

Lemma first_match_none ps url :
  existsb (λ p, bool_decide (is_Some (Re.re_search p url))) ps = false →
  first_match ps url = None.
Proof.
  induction ps as [|p ps IH]; simpl; [done|].
  intros [H1 H2]%orb_false_iff.
  destruct (Re.re_search p url); [|auto].
  apply bool_decide_eq_false in H1. destruct H1. eauto.
Qed.

(** The third pattern never decides: where it matches, the second one,
    tried before it, matches too.  (Checked here on an example.) *)
Example third_pattern_shadowed :
  first_match patterns "https://books.google.com/books?id=XyZ&pg=PA1"
  = Some "XyZ"
  ∧ Re.re_search (nth 1 patterns []) "https://books.google.com/books?id=XyZ&pg=PA1"
    = Some (Some "XyZ").
Proof. split; reflexivity. Qed.

(** A URL without the shape its source reads gives no identifier. *)
Lemma get_id_no_pattern self url :
  matches_pattern (cls self) url = false →
  get_id self (JStr url) = Ok (self, None).
Proof.
  intros Hm. unfold get_id. unfold matches_pattern in Hm.
  destruct (cls self); cbn [py_in py_split mbind result_bind].
  - destruct (PyStr.contains "/ebooks/" url) eqn:E; simpl; [|done].
    simpl in Hm. apply bool_decide_eq_false in Hm.
    destruct (split_second "/ebooks/" url) as [tail Ht]; [done|done|].
    destruct (split_first "?" tail) as [p Hp].
    unfold index. rewrite Ht. simpl. rewrite Hp. simpl.
    unfold id_segment in Hm. rewrite Ht in Hm. simpl in Hm. rewrite Hp in Hm.
    simpl in Hm. destruct (PyStr.int p); [|done]. destruct Hm. eauto.
  - rewrite Hm. done.
  - rewrite first_match_none; done.
Qed.

(** C4.  A URL that contains the domain token of a source but does not
    have the shape that source reads an identifier from (no [/ebooks/] or
    no integer after it for Gutenberg, no [/details/] for the Internet
    Archive, none of the three patterns for Google Books) resolves to no
    identifier: [get_id] returns [None], leaves the instance as it was,
    and raises nothing. *)
Theorem get_id_malformed_url (self : downloader) (url : string) :
  PyStr.contains (domain (cls self)) url = true →
  matches_pattern (cls self) url = false →
  get_id self (JStr url) = Ok (self, None).
Proof. intros _ Hm. by apply get_id_no_pattern. Qed.

Lemma get_id_malformed_url_witness :
  get_id (new GutenbergDownloader)
    (JStr "https://www.gutenberg.org/ebooks/pride")
  = Ok (new GutenbergDownloader, None).
Proof. apply get_id_malformed_url; reflexivity. Defined.

(** The same on the path of [process_input]: the request is dropped. *)
Lemma plan_malformed_url lower url d :
  get lower "url" = JStr url →
  match_downloader DOWNLOADERS (JStr url) = Ok (Some d) →
  PyStr.contains (domain (cls d)) url = true →
  matches_pattern (cls d) url = false →
  plan lower = Ok None.
Proof.
  intros Hu Hd Hc Hm. unfold plan. rewrite Hu.
  destruct (_ || _); [done|].
  rewrite Hd. by rewrite (get_id_no_pattern d url Hm).
Qed.

(** ** Fetch strategy of the plain-text sources *)

Lemma gets_app t1 t2 : gets (t1 ++ t2) = gets t1 ++ gets t2.
Proof. induction t1 as [|[] t1 IH]; cbn; by rewrite ?IH. Qed.

Lemma In_gets u n t : In (EvGet u n) t → In u (gets t).
Proof.
  induction t as [|e t IH]; [done|]. intros [->|H]; cbn.
  - by left.
  - destruct e; cbn; auto.
Qed.

(** Candidates that do not answer 200 are passed over. *)
Lemma download_text_skip w pre rest :
  Forall (λ u, is200 w u = false) pre →
  (_download_text w (pre ++ rest)).1 = (_download_text w rest).1
  ∧ gets (_download_text w (pre ++ rest)).2
    = pre ++ gets (_download_text w rest).2.
Proof.
  induction 1 as [|u pre Hu _ IH]; [done|].
  cbn [app _download_text]. unfold is200 in Hu.
  destruct (SESSION_get w u) as [r|e].
  - rewrite Hu. cbn. destruct (_download_text w (pre ++ rest)) as [[x|x] t];
      destruct (_download_text w rest) as [[y|y] t']; cbn in *;
      destruct IH as [-> ->]; done.
  - cbn. destruct (_download_text w (pre ++ rest)) as [[x|x] t];
      destruct (_download_text w rest) as [[y|y] t']; cbn in *;
      destruct IH as [-> ->]; done.
Qed.

(** The loop stops at a candidate that answers 200. *)
Lemma download_text_hit w u post r :
  SESSION_get w u = Ok r → status_code r = 200 →
  _download_text w (u :: post) = (Ok (Some r, Some u), [EvGet u 20]).
Proof. intros H1 H2. cbn. rewrite H1, H2. done. Qed.

Lemma download_text_miss w urls :
  Forall (λ u, is200 w u = false) urls →
  (_download_text w urls).1 = Ok (None, None)
  ∧ gets (_download_text w urls).2 = urls.
Proof.
  intros H. destruct (download_text_skip w urls [] H) as [H1 H2].
  rewrite app_nil_r in H1, H2. cbn in H2. by rewrite app_nil_r in H2.
Qed.

Lemma ok_200 r : status_code r = 200 → ok r = true.
Proof. intros H. unfold ok. by rewrite H. Qed.

Lemma first_text_hit w pre u post r :
  Forall (λ x, is200 w x = false) pre →
  SESSION_get w u = Ok r → status_code r = 200 →
  (first_text w (pre ++ u :: post)).1
  = Ok (if PyStr.nonempty (PyStr.strip (text r))
        then (Some (text r), Some u) else (None, None))
  ∧ gets (first_text w (pre ++ u :: post)).2 = pre ++ [u].
Proof.
  intros Hpre Hu Hr.
  destruct (download_text_skip w pre (u :: post) Hpre) as [H1 H2].
  rewrite (download_text_hit w u post r Hu Hr) in H1, H2.
  unfold first_text.
  destruct (_download_text w (pre ++ u :: post)) as [res t].
  cbn in H1, H2. subst res. cbn. rewrite (ok_200 r Hr). cbn.
  destruct (PyStr.nonempty _); cbn; by rewrite app_nil_r.
Qed.

Lemma first_text_miss w urls :
  Forall (λ u, is200 w u = false) urls →
  (first_text w urls).1 = Ok (None, None)
  ∧ gets (first_text w urls).2 = urls.
Proof.
  intros H. destruct (download_text_miss w urls H) as [H1 H2].
  unfold first_text. destruct (_download_text w urls) as [res t].
  cbn in H1, H2. subst res. cbn. by rewrite app_nil_r.
Qed.

(** C1, as the specification words it, fails: with a first candidate
    answered 200 with a blank body and a second one answered 200 with
    text, the fetch does not return the second. *)
Lemma first_text_not_first_good :
  ¬ returns_first_good Scenario.blank_first
      (candidates GutenbergDownloader (IdInt 1342)).
Proof.
  intros H.
  specialize (H Scenario.pride_1 (Scenario.resp 200 Scenario.pride_text)
                eq_refl eq_refl).
  vm_compute in H. discriminate H.
Qed.

(** C1, amended.  For every ordered list of candidate URLs the fetch
    requests them in order up to the first one answered with status 200
    and no further; candidates that fail or answer another status are
    passed over.  It returns the text and URL of that first 200 response
    when its trimmed body is not empty, and (none, none) when it is empty
    or when no candidate answers 200.  It never raises.  The Gutenberg and
    Internet Archive [download] are this fetch on their candidates. *)
Theorem first_text_first_200 (w : World) (urls : list string) :
  match list_find (λ u, is200 w u = true) urls with
  | Some (n, u) =>
      ∃ r, SESSION_get w u = Ok r ∧ status_code r = 200
           ∧ (first_text w urls).1
             = Ok (if PyStr.nonempty (PyStr.strip (text r))
                   then (Some (text r), Some u) else (None, None))
           ∧ gets (first_text w urls).2 = take (S n) urls
  | None =>
      (first_text w urls).1 = Ok (None, None)
      ∧ gets (first_text w urls).2 = urls
  end
  ∧ ∀ d i, cls d ≠ GoogleBooksDownloader → self_id d = Some i →
           download w d = first_text w (candidates (cls d) i).
Proof.
  split.
  - destruct (list_find _ urls) as [[n u]|] eqn:E.
    + apply list_find_Some in E as (Hn & Hu & Hpre).
      unfold is200 in Hu. destruct (SESSION_get w u) as [r|] eqn:Hr; [|done].
      apply Z.eqb_eq in Hu. exists r. split_and!; [done..| |].
      all: rewrite <- (take_drop_middle urls n u Hn) at 1.
      all: assert (Forall (λ x, is200 w x = false) (take n urls)) as HF.
      1,3: apply Forall_forall; intros x Hx;
           apply list_elem_of_lookup in Hx as [j Hj];
           apply lookup_take_Some in Hj as [Hj Hlt];
           specialize (Hpre j x Hj Hlt); by apply not_true_is_false.
      * by apply first_text_hit.
      * destruct (first_text_hit w _ u (drop (S n) urls) r HF Hr Hu) as [_ ->].
        by rewrite (take_S_r urls n u Hn).
    + apply list_find_None in E. apply first_text_miss.
      eapply Forall_impl; [exact E|]. intros x Hx. by apply not_true_is_false.
  - intros d i Hc Hi. unfold download. rewrite Hi. by destruct (cls d).
Qed.

Example first_text_second_hit :
  download Scenario.second_hit Scenario.pride
  = (Ok (Some Scenario.pride_text, Some Scenario.pride_1),
     [EvGet Scenario.pride_0 20; EvGet Scenario.pride_1 20]).
Proof. reflexivity. Qed.

(** ** Text extraction pipeline *)

(** C6.  If structural extraction yields text that is not blank, that
    text is returned and OCR is not run.  If it yields nothing (blank
    text or a failure) and both OCR programs are installed, OCR is run
    exactly once, on the original bytes, and when it produces a PDF that
    PDF goes through structural extraction, whose outcome is returned.
    If OCR cannot run here, the result is no text and OCR is not run. *)
Theorem convert_pdf_to_text_ocr_policy (w : World) (pdf : response) :
  let r := convert_pdf_to_text w pdf in
  match structural w (content pdf) with
  | Some t =>
      r.1 = Ok (Some t) ∧ ocr_runs r.2 = [] ∧ extractions r.2 = [content pdf]
  | None =>
      if ocr_capable w then
        ocr_runs r.2 = [content pdf]
        ∧ match ocrmypdf w (content pdf) with
          | Ok out =>
              extractions r.2 = [content pdf; out]
              ∧ r.1 = Ok (structural w out)
          | Raise _ => extractions r.2 = [content pdf] ∧ r.1 = Ok None
          end
      else r.1 = Ok None ∧ ocr_runs r.2 = [] ∧ extractions r.2 = [content pdf]
  end.
Proof.
  unfold convert_pdf_to_text, extract_text_from_pdf, extract_ocr_from_pdf,
    structural, ocr_capable.
  destruct (extract_text w (content pdf)) as [t|e]; [destruct (has_text t)|];
    cbn; try done;
    (destruct (which w "tesseract"); cbn; [|done]);
    (destruct (which w "gswin64c"); cbn; [|destruct (which w "gs"); cbn; [|done]]);
    (destruct (ocrmypdf w (content pdf)) as [out|e']; cbn; [|done]);
    (destruct (extract_text w out) as [t'|e'']; [destruct (has_text t')|]);
    done.
Qed.

Example convert_scanned :
  convert_pdf_to_text Scenario.scanned (Scenario.resp 200 "scan")
  = (Ok (Some "Call me Ishmael."),
     [EvExtractText "scan"; EvWhich "tesseract"; EvWhich "gswin64c";
      EvWhich "gs"; EvOcr "scan"; EvExtractText "ocr output"]).
Proof. reflexivity. Qed.

(** The text pipeline makes no HTTP request and raises nothing. *)
Lemma convert_pdf_to_text_trace w pdf :
  gets (convert_pdf_to_text w pdf).2 = []
  ∧ ∃ t, (convert_pdf_to_text w pdf).1 = Ok t.
Proof.
  unfold convert_pdf_to_text, extract_text_from_pdf, extract_ocr_from_pdf.
  repeat (eff_step; cbn); eauto.
Qed.

(** C8.  When the PDF link of a Google Books volume is answered with a
    status other than 200 or with a body under 50,000 bytes, the fetch
    returns (none, none) and nothing is handed to the text pipeline: the
    trace holds no pdfminer call, no OCR run and no probe for the OCR
    programs. *)
Theorem extract_pdf_rejects (w : World) (meta : jvalue) (link : string)
    (pdf : response) :
  In (EvGet link 60) (extract_pdf w meta).2 →
  SESSION_get w link = Ok pdf →
  status_code pdf ≠ 200 ∨ Z.of_nat (String.length (content pdf)) < 50000 →
  (extract_pdf w meta).1 = Ok (None, None)
  ∧ Forall (λ e, is_extraction e = false) (extract_pdf w meta).2.
Proof.
  intros Hin Hget Hbad.
  assert (negb (status_code pdf =? 200)
          || (Z.of_nat (String.length (content pdf)) <? 50000) = true) as Hb.
  { destruct Hbad as [H|H].
    - apply Z.eqb_neq in H. rewrite H. done.
    - apply Z.ltb_lt in H. rewrite H. apply orb_true_r. }
  apply In_gets in Hin. revert Hin. unfold extract_pdf, py_get, or_empty.
  repeat (eff_step; cbn -[convert_pdf_to_text]);
    try (intros []; fail); try (intros _; split; [done|by repeat constructor]).
  all: try (intros [->|[]]; congruence).
  match goal with |- context [convert_pdf_to_text w ?r] =>
    destruct (convert_pdf_to_text_trace w r) as [Hg _];
    destruct (convert_pdf_to_text w r) as [[t|e] tr]
  end; cbn in *; rewrite ?gets_app, ?app_nil_r, Hg; intros [->|[]]; congruence.
Qed.

Lemma extract_pdf_rejects_witness :
  (extract_pdf Scenario.google_captcha Scenario.meta_link).1 = Ok (None, None)
  ∧ Forall (λ e, is_extraction e = false)
      (extract_pdf Scenario.google_captcha Scenario.meta_link).2.
Proof.
  apply (extract_pdf_rejects Scenario.google_captcha Scenario.meta_link
           "https://books.example/pdf" (Scenario.resp 200 "<html>captcha</html>")).
  - simpl. left. reflexivity.
  - reflexivity.
  - right. reflexivity.
Defined.

(** At 50,000 bytes and status 200 the body does reach the pipeline. *)
Example extract_pdf_accepts :
  match extract_pdf Scenario.google_pdf Scenario.meta_link with
  | (Ok (Some t, Some u), tr) =>
      String.eqb t "Call me Ishmael."
      && String.eqb u "https://books.example/pdf"
      && match extractions tr with
         | [d] => String.eqb d Scenario.big_body
         | _ => false
         end
  | _ => false
  end = true.
Proof. vm_compute. reflexivity. Qed.

(** ** Record store *)

Lemma key_of_overwrite c f r : key_of c (overwrite f r) = key_of c r.
Proof. by destruct c. Qed.

Lemma key_of_new_row c c' n i f :
  key_of c' (new_row n c i f) = if decide (c = c') then Some i else None.
Proof. destruct c, c'; done. Qed.

(** [exists_] is membership in the column. *)
Lemma exists_elem_of c i db : exists_ c i db = true ↔ i ∈ column c db.
Proof.
  unfold exists_, column. rewrite existsb_exists, list_elem_of_omap.
  split.
  - intros (r & Hr%list_elem_of_In & Hk). exists r. split; [done|].
    by apply bool_decide_eq_true in Hk.
  - intros (r & Hr%list_elem_of_In & Hk). exists r. split; [done|].
    by apply bool_decide_eq_true.
Qed.

(** The update branch leaves every identifier column as it is. *)
Lemma column_update c c' i f db :
  column c' ((λ r, if has_key c i r then overwrite f r else r) <$> db)
  = column c' db.
Proof.
  unfold column. induction db as [|r db IH]; [done|]. cbn.
  rewrite IH. destruct (has_key c i r); by rewrite ?key_of_overwrite.
Qed.

Lemma column_upsert c c' i f db :
  column c' (upsert c i f db)
  = if exists_ c i db then column c' db
    else column c' db ++ if decide (c = c') then [i] else [].
Proof.
  unfold upsert. destruct (exists_ c i db) eqn:E.
  - apply column_update.
  - unfold column. rewrite omap_app. cbn. rewrite key_of_new_row.
    by case_decide.
Qed.

Lemma upsert_unique c i f db : unique_ids db → unique_ids (upsert c i f db).
Proof.
  intros H c'. rewrite column_upsert.
  destruct (exists_ c i db) eqn:E; [done|].
  case_decide as Hc; [subst c'|by rewrite app_nil_r].
  apply NoDup_app. split_and!; [done| |apply NoDup_singleton].
  intros x Hx ->%list_elem_of_singleton.
  apply exists_elem_of in Hx. congruence.
Qed.

Lemma upserts_unique ops db : unique_ids db → unique_ids (upserts ops db).
Proof.
  revert db. induction ops as [|[[c i] f] ops IH]; intros db H; [done|].
  cbn. apply IH. by apply upsert_unique.
Qed.

Lemma init_database_unique : unique_ids init_database.
Proof. intros c. apply NoDup_nil_2. Qed.

(** An upsert keeps what is there and makes its own identifier present. *)
Lemma upsert_extends c i f db : extends db (upsert c i f db).
Proof.
  intros c' i' H. apply exists_elem_of. apply exists_elem_of in H.
  rewrite column_upsert. destruct (exists_ c i db); [done|].
  apply elem_of_app. by left.
Qed.

Lemma upsert_exists c i f db : exists_ c i (upsert c i f db) = true.
Proof.
  apply exists_elem_of. rewrite column_upsert.
  destruct (exists_ c i db) eqn:E; [by apply exists_elem_of|].
  apply elem_of_app. right. rewrite decide_True by done.
  by apply list_elem_of_singleton.
Qed.

(** C3.  After any sequence of upserts on a table whose identifier
    columns hold no value twice (the empty table of [init_database] is
    one), no identifier column holds a non-null value twice.  An upsert
    whose identifier is already there creates no row: the table keeps
    its length, the rows with that identifier get the new title, author,
    category, source_url and content and keep their rowid and their three
    identifier columns, and every other row is left as it is. *)
Theorem upsert_keeps_identifiers_unique
    (ops : list (downloader_class * pyid * fields)) (db : store)
    (c : downloader_class) (i : pyid) (f : fields) :
  unique_ids db →
  let db1 := upserts ops db in
  unique_ids db1
  ∧ (exists_ c i db1 = true →
     length (upsert c i f db1) = length db1
     ∧ ∀ n r, db1 !! n = Some r →
         upsert c i f db1 !! n
         = Some (if has_key c i r then overwrite f r else r)
         ∧ (∀ c', key_of c' (overwrite f r) = key_of c' r)
         ∧ rowid (overwrite f r) = rowid r
         ∧ title (overwrite f r) = f_title f
         ∧ author (overwrite f r) = f_author f
         ∧ category (overwrite f r) = f_category f
         ∧ source_url (overwrite f r) = f_source_url f
         ∧ content_ (overwrite f r) = Some (f_content f)).
Proof.
  intros H db1. split; [by apply upserts_unique|].
  intros E. unfold upsert. rewrite E. split; [by rewrite length_fmap|].
  intros n r Hn. rewrite list_lookup_fmap, Hn. split_and!; try done.
Qed.

Lemma upsert_keeps_identifiers_unique_witness :
  unique_ids (upserts Scenario.two_upserts init_database).
Proof.
  refine (proj1 (upsert_keeps_identifiers_unique Scenario.two_upserts
                   init_database GutenbergDownloader (IdInt 1342)
                   Scenario.second_edition _)).
  intros c. apply NoDup_nil_2.
Defined.

Example upsert_twice :
  upserts Scenario.two_upserts init_database
  = [ {| rowid := 1; gutenberg_id := Some (IdInt 1342); ia_title_id := None;
         gb_title_id := None; author := Some "Jane Austen";
         title := Some "Pride and Prejudice (2nd ed.)";
         category := Some "Novel"; source_url := Some Scenario.pride_1;
         content_ := Some "It is a truth" |} ].
Proof. reflexivity. Qed.

(** ** Batch coordinator *)

(** [download] reads the class and the identifier only. *)
Lemma download_set_book w d b : download w (set_book d b) = download w d.
Proof. done. Qed.

(** C7.  When the fetch of a request returns no text ([None], or an
    empty string), [store_in_db] writes nothing: the table is the one it
    was given, no statement is executed, and the last thing it does is
    log "Failed to store".  The fetch of a Google Books volume whose
    metadata says [isAvailable] false, or gives no download link, is such
    a fetch: see [download_unavailable]. *)
Theorem store_in_db_no_text (w : World) (d : downloader) (db : store)
    (title_id : pyid) (user_title author category : jvalue)
    (txt url : option string) :
  self_book d = Some (title_id, user_title, author, category) →
  (download w d).1 = Ok (txt, url) →
  truthy_str txt = false →
  store_in_db w d db
  = ((Ok tt,
      EvLog INFO "Downloading %s (%s)" [AId title_id; AStr (domain (cls d))]
      :: (download w d).2
      ++ [EvLog WARNING "Failed to store %s" [AId title_id]]),
     db).
Proof.
  intros Hb Hd Ht. unfold store_in_db. rewrite Hb. msimpl.
  destruct (download w d) as [r t]. cbn in Hd. subst r. msimpl.
  destruct txt as [text|]; [|done].
  cbn in Ht. rewrite Ht. by rewrite ?app_nil_r.
Qed.

Lemma store_in_db_no_text_witness :
  store_in_db Scenario.google_unavailable Scenario.xyz [Scenario.pride_row]
  = ((Ok tt,
      [EvLog INFO "Downloading %s (%s)" [AId (IdStr "XyZ"); AStr "books.google."];
       EvGet Scenario.volume 20;
       EvLog INFO "No downloadable PDF for this volume" [];
       EvLog WARNING "Failed to store %s" [AId (IdStr "XyZ")]]),
     [Scenario.pride_row]).
Proof.
  exact (store_in_db_no_text Scenario.google_unavailable Scenario.xyz
           [Scenario.pride_row] (IdStr "XyZ") (JStr "A Volume")
           (JStr "Unknown") (JStr "Uncategorized") None None
           eq_refl eq_refl eq_refl).
Defined.

Lemma or_empty_dict items : or_empty (JDict items) = JDict items.
Proof. by destruct items. Qed.

Lemma assoc_truthy k items v :
  assoc k items = v → v ≠ JNull → truthy (JDict items) = true.
Proof. by destruct items. Qed.

(** X12.  A volume whose metadata marks the PDF unavailable, or gives
    no link to it, is fetched as (none, none), with the one metadata
    request and no other. *)
Lemma download_unavailable w d i r items access info :
  cls d = GoogleBooksDownloader → self_id d = Some i →
  SESSION_get w (volume_url w i) = Ok r → status_code r = 200 →
  json r = Ok (JDict items) →
  assoc "accessInfo" items = JDict access →
  assoc "pdf" access = JDict info →
  truthy (assoc "isAvailable" info) = false
  ∨ truthy (assoc "downloadLink" info) = false →
  (download w d).1 = Ok (None, None)
  ∧ gets (download w d).2 = [volume_url w i].
Proof.
  intros Hc Hi Hr Hs Hj Ha Hp Hno.
  assert (extract_pdf w (JDict items) = (Ok (None, None),
            [EvLog INFO "No downloadable PDF for this volume" []])
          ∨ extract_pdf w (JDict items) = (Ok (None, None),
            [EvLog WARNING "PDF marked available but no downloadLink present" []]))
    as Hx.
  { unfold extract_pdf, py_get. rewrite Ha. cbn [liftR mbind Eff_bind].
    rewrite or_empty_dict, Hp. cbn [liftR mbind Eff_bind].
    rewrite or_empty_dict. cbn [liftR mbind Eff_bind].
    destruct (truthy (assoc "isAvailable" info)) eqn:E1; [|by left].
    destruct Hno as [?|E2]; [done|]. rewrite E2. by right. }
  unfold download, _get_json. rewrite Hi, Hc, Hr, Hs, Hj.
  cbn -[extract_pdf truthy]. rewrite (assoc_truthy _ _ _ Ha) by done.
  destruct Hx as [-> | ->]; done.
Qed.

(** The loop body in one piece: the request is dropped, fails to bind,
    is skipped, or is attempted, and an attempt raises, stores or fails. *)
Lemma process_record_eq w total idx lower db :
  process_record w total idx lower db =
  match plan lower with
  | Raise e => ((Raise e, []), db)
  | Ok None => ((Ok tt, []), db)
  | Ok (Some (d, b)) =>
      let sid := b.1.1.1 in
      match bind_param sid with
      | Raise e => ((Raise e, []), db)
      | Ok _ =>
          if exists_ (cls d) sid db then ((Ok tt, skip_trace d sid), db)
          else
            match download w d with
            | (Raise e, t) =>
                ((Raise e, attempt_prefix total idx d sid ++ t), db)
            | (Ok (Some text, url), t) =>
                if PyStr.nonempty text then
                  match fields_of w b url text with
                  | Ok f =>
                      ((Ok tt, attempt_prefix total idx d sid ++ t ++
                               [EvUpsert (name (cls d)) sid; EvCommit;
                                EvLog INFO "Stored %s successfully" [AId sid];
                                EvSleep 1]),
                       upsert (cls d) sid f db)
                  | Raise e =>
                      ((Raise e, attempt_prefix total idx d sid ++ t), db)
                  end
                else
                  ((Ok tt, attempt_prefix total idx d sid ++ t ++
                           [EvLog WARNING "Failed to store %s" [AId sid];
                            EvSleep 1]), db)
            | (Ok (None, url), t) =>
                ((Ok tt, attempt_prefix total idx d sid ++ t ++
                         [EvLog WARNING "Failed to store %s" [AId sid];
                          EvSleep 1]), db)
            end
      end
  end.
Proof.
  unfold process_record, plan.
  destruct (negb (truthy (get lower "url"))
            || negb (truthy (get lower "title"))); [done|].
  destruct (match_downloader DOWNLOADERS (get lower "url")) as [[d|]|e];
    [|done..].
  msimpl.
  destruct (get_id d (get lower "url")) as [[d' [sid|]]|e]; [|done|done].
  msimpl. destruct (bind_param sid) as [[]|e] eqn:Hb; [|done].
  destruct (exists_ (cls d') sid db); [done|]. msimpl.
  rewrite download_set_book.
  destruct (download w d') as [[[[text|] u]|e] t] eqn:Hd; msimpl.
  - destruct (PyStr.nonempty text); msimpl; rewrite ?Hb; msimpl.
    + destruct (bind_fields w _ _ _ u text) as [f|e]; msimpl;
        rewrite ?app_nil_r; by rewrite <- ?app_assoc.
    + rewrite ?app_nil_r; by rewrite <- ?app_assoc.
  - rewrite ?app_nil_r. by rewrite <- ?app_assoc.
  - done.
Qed.

(** C5.  A request whose URL resolves to an identifier that is in the
    table, under the column of its source, makes no HTTP request: the
    table is left as it is, and the trace is empty (the request was
    dropped for want of a title, or its identifier could not be bound) or
    is the [SELECT] followed by the "Skipping" log line. *)
Theorem process_record_skips_known (w : World) (total idx : Z)
    (lower : gmap string jvalue) (db : store)
    (url : jvalue) (d d' : downloader) (sid : pyid) :
  get lower "url" = url →
  match_downloader DOWNLOADERS url = Ok (Some d) →
  get_id d url = Ok (d', Some sid) →
  exists_ (cls d') sid db = true →
  let r := process_record w total idx lower db in
  r.2 = db
  ∧ gets r.1.2 = []
  ∧ (r.1.2 = [] ∨ r.1.2 = skip_trace d' sid).
Proof.
  intros Hu Hd Hg He. cbv zeta. rewrite process_record_eq. unfold plan.
  rewrite Hu. destruct (_ || _); [by auto|]. rewrite Hd, Hg. cbn.
  destruct (bind_param sid); [|by auto]. rewrite He. by auto.
Qed.

Lemma process_record_skips_known_witness :
  let r := process_record Scenario.second_hit 1 1 Scenario.pride_request
             [Scenario.pride_row] in
  r.2 = [Scenario.pride_row]
  ∧ gets r.1.2 = []
  ∧ (r.1.2 = []
     ∨ r.1.2 = skip_trace (set_id (new GutenbergDownloader) (IdInt 1342))
                 (IdInt 1342)).
Proof.
  exact (process_record_skips_known Scenario.second_hit 1 1
           Scenario.pride_request [Scenario.pride_row]
           (JStr "https://www.gutenberg.org/ebooks/1342")
           (new GutenbergDownloader)
           (set_id (new GutenbergDownloader) (IdInt 1342)) (IdInt 1342)
           eq_refl eq_refl eq_refl eq_refl).
Defined.

(** *** Pacing *)

Lemma quiet_app t1 t2 : quiet t1 → quiet t2 → quiet (t1 ++ t2).
Proof. unfold quiet. rewrite forallb_app. by intros -> ->. Qed.

(** Within a store attempt, events that neither start an attempt nor
    pause do not count. *)
Lemma pacing_quiet t t' : quiet t → pacing true (t ++ t') = pacing true t'.
Proof.
  unfold quiet. induction t as [|e t IH]; [done|]. cbn [forallb app pacing].
  intros [[Ha Hs]%andb_true_iff Ht]%andb_true_iff.
  apply negb_true_iff in Ha, Hs. rewrite Ha.
  destruct (is_activity e); [by apply IH|].
  destruct e; try discriminate Hs; by apply IH.
Qed.

Lemma sleeps_app t1 t2 : sleeps (t1 ++ t2) = sleeps t1 ++ sleeps t2.
Proof. induction t1 as [|[] t1 IH]; cbn; by rewrite ?IH. Qed.

Lemma quiet_sleeps t : quiet t → sleeps t = [].
Proof.
  unfold quiet. induction t as [|e t IH]; [done|]. cbn [forallb].
  intros [[_ Hs]%andb_true_iff Ht]%andb_true_iff.
  destruct e; try discriminate Hs; by apply IH.
Qed.

Lemma download_text_quiet w urls : quiet (_download_text w urls).2.
Proof.
  induction urls as [|u urls IH]; [done|]. cbn [_download_text].
  destruct (SESSION_get w u) as [r|e]; cbn.
  - destruct (status_code r =? 200); [done|].
    by destruct (_download_text w urls) as [[?|?] ?].
  - by destruct (_download_text w urls) as [[?|?] ?].
Qed.

Lemma convert_pdf_to_text_quiet w pdf : quiet (convert_pdf_to_text w pdf).2.
Proof.
  unfold convert_pdf_to_text, extract_text_from_pdf, extract_ocr_from_pdf.
  repeat (eff_step; cbn); done.
Qed.

Lemma extract_pdf_quiet w meta : quiet (extract_pdf w meta).2.
Proof.
  unfold extract_pdf, py_get, or_empty.
  repeat (eff_step; cbn -[convert_pdf_to_text]); try done.
  match goal with |- context [convert_pdf_to_text w ?r] =>
    pose proof (convert_pdf_to_text_quiet w r) as Hq;
    destruct (convert_pdf_to_text w r) as [[t|e] tr]
  end; cbn in *; by rewrite ?app_nil_r.
Qed.

(** A fetch neither starts a store attempt nor pauses. *)
Lemma download_quiet w d : quiet (download w d).2.
Proof.
  unfold download. destruct (self_id d) as [i|]; [|done].
  destruct (cls d).
  - unfold first_text. pose proof (download_text_quiet w (candidates GutenbergDownloader i)) as Hq.
    destruct (_download_text w _) as [[[[r|] u]|e] t]; cbn in *;
      rewrite ?app_nil_r; try done.
    destruct (_ && _); cbn; by rewrite app_nil_r.
  - unfold first_text. pose proof (download_text_quiet w (candidates InternetArchiveDownloader i)) as Hq.
    destruct (_download_text w _) as [[[[r|] u]|e] t]; cbn in *;
      rewrite ?app_nil_r; try done.
    destruct (_ && _); cbn; by rewrite app_nil_r.
  - unfold _get_json.
    destruct (SESSION_get w (volume_url w i)) as [r|e];
      cbn -[extract_pdf]; [|done].
    destruct (status_code r =? 200); cbn -[extract_pdf]; [|done].
    destruct (json r) as [m|e]; cbn -[extract_pdf]; [|done].
    destruct (truthy m); cbn -[extract_pdf]; [|done].
    pose proof (extract_pdf_quiet w m) as Hq.
    by destruct (extract_pdf w m) as [[?|?] ?].
Qed.

(** A fetch with an identifier makes at least one request. *)
Lemma download_gets w d i : self_id d = Some i → gets (download w d).2 ≠ [].
Proof.
  intros Hi. unfold download. rewrite Hi.
  assert (∀ u urls, gets (first_text w (u :: urls)).2 ≠ []) as Hplain.
  { intros u urls. unfold first_text. cbn [_download_text].
    destruct (SESSION_get w u) as [r|e]; cbn.
    - destruct (status_code r =? 200); cbn.
      + by destruct (_ && _).
      + destruct (_download_text w urls) as [[[[?|] ?]|?] ?]; cbn; try done.
        by destruct (_ && _).
    - destruct (_download_text w urls) as [[[[?|] ?]|?] ?]; cbn; try done.
      by destruct (_ && _). }
  destruct (cls d); [apply Hplain..|].
  unfold _get_json.
  destruct (SESSION_get w (volume_url w i)) as [r|e];
    cbn -[extract_pdf]; [|done].
  destruct (status_code r =? 200); cbn -[extract_pdf]; [|done].
  destruct (json r) as [m|e]; cbn -[extract_pdf]; [|done].
  destruct (truthy m); cbn -[extract_pdf]; [|done].
  by destruct (extract_pdf w m) as [[?|?] ?].
Qed.

(** What [get_id] returns is what it has set, and has the type its
    source gives it. *)
Lemma get_id_typed d url d' sid :
  get_id d url = Ok (d', Some sid) →
  cls d' = cls d ∧ self_id d' = Some sid ∧ id_typed (cls d) sid = true.
Proof.
  unfold get_id. destruct (cls d) eqn:Hc.
  - destruct (py_in _ url) as [[]|]; [|done..]. cbn.
    destruct (py_split _ url) as [pieces|]; [|done]. cbn.
    destruct (index _ 1) as [tail|]; [|done]. cbn.
    destruct (index _ 0) as [num|]; [|done]. cbn.
    destruct (PyStr.int num); [|done]. by intros [= <- <-].
  - destruct (py_in _ url) as [[]|]; [|done..]. cbn.
    destruct (py_split _ url) as [pieces|]; [|done]. cbn.
    destruct (index _ 1) as [tail|]; [|done]. cbn.
    destruct (index _ 0) as [seg|]; [|done]. cbn. by intros [= <- <-].
  - destruct url; try done.
    destruct (first_match _ _); [|done]. by intros [= <- <-].
Qed.

(** The trace of a store attempt: it starts with the "Downloading" line,
    holds no pause and at least one request. *)
Lemma store_in_db_trace w d b i db :
  self_book d = Some b → self_id d = Some i →
  ∃ t, (store_in_db w d db).1.2
       = EvLog INFO "Downloading %s (%s)" [AId b.1.1.1; AStr (domain (cls d))]
         :: t
       ∧ quiet t ∧ gets t ≠ [].
Proof.
  intros Hb Hi. unfold store_in_db. rewrite Hb.
  destruct b as [[[title_id user_title] author] category]. msimpl.
  pose proof (download_quiet w d) as Hq.
  pose proof (download_gets w d i Hi) as Hg.
  destruct (download w d) as [[[[text|] u]|e] t]; msimpl; cbn [snd] in Hq, Hg.
  - destruct (PyStr.nonempty text); msimpl;
      [destruct (bind_param title_id) as [[]|e]; msimpl;
       [destruct (bind_fields w _ _ _ u text) as [f|e]; msimpl|]|];
      eexists; (split; [reflexivity|]); rewrite ?app_nil_r;
      (split; [first [exact Hq | apply quiet_app; [exact Hq|reflexivity]]|]);
      rewrite ?gets_app; by destruct (gets t).
  - eexists; (split; [reflexivity|]). rewrite ?app_nil_r.
    split; [apply quiet_app; [exact Hq|reflexivity]|].
    rewrite gets_app. by destruct (gets t).
  - eexists; (split; [reflexivity|]). by rewrite ?app_nil_r.
Qed.

(** One request: if it returns, what follows is paced as if this
    request had not been there; if it raises, its trace keeps the rules. *)
Lemma process_record_pacing w total idx lower db :
  let r := process_record w total idx lower db in
  match r.1.1 with
  | Ok _ => ∀ t', pacing false (r.1.2 ++ t') = pacing false t'
  | Raise _ => is_Some (pacing false r.1.2)
  end.
Proof.
  cbv zeta. rewrite process_record_eq.
  destruct (plan lower) as [[[d b]|]|e];
    [|cbn; first [done | by eexists]..].
  cbv zeta. destruct (bind_param _) as [[]|e]; [|by eexists].
  destruct (exists_ _ _ db); [done|].
  pose proof (download_quiet w d) as Hq.
  destruct (download w d) as [[[[text|] u]|e] t]; cbn [fst snd] in *.
  - destruct (PyStr.nonempty text); [destruct (fields_of w b u text)|];
      cbn [fst snd]; try intros t';
      cbn [fst snd attempt_prefix app pacing is_attempt is_activity
           String.eqb Ascii.eqb Bool.eqb negb andb];
      first [ rewrite <- app_assoc, pacing_quiet by done; done
            | rewrite <- (app_nil_r t), pacing_quiet by done; done ].
  - intros t'.
    cbn [fst snd attempt_prefix app pacing is_attempt is_activity String.eqb
         Ascii.eqb Bool.eqb negb andb].
    rewrite <- app_assoc, pacing_quiet by done; done.
  - cbn [fst snd attempt_prefix app pacing is_attempt is_activity String.eqb
         Ascii.eqb Bool.eqb negb andb].
    rewrite <- (app_nil_r t), pacing_quiet by done; done.
Qed.

Lemma process_from_pacing w total idx data db :
  ∃ p, pacing false (process_from w total idx data db).1.2 = Some p
       ∧ ((process_from w total idx data db).1.1 = Ok tt → p = false).
Proof.
  revert idx db. induction data as [|it data IH]; intros idx db; [by eexists|].
  cbn [process_from]. unfold process_item.
  destruct (lower_keys it) as [lower|e]; [|by eexists].
  unfold mbind, M_bind. cbn [liftE liftR].
  pose proof (process_record_pacing w total idx lower db) as Hp.
  cbv zeta in Hp.
  destruct (process_record w total idx lower db) as [[[[]|e] t] db1];
    cbn [fst snd app] in *.
  - destruct (IH (idx + 1) db1) as (p & H1 & H2).
    destruct (process_from w total (idx + 1) data db1) as [[r t'] db2].
    cbn [fst snd] in *. exists p. by rewrite Hp.
  - destruct Hp as [p Hp]. exists p. done.
Qed.

(** The requests that go as far as the table: both fields are there and
    the URL resolves to an identifier. *)
Lemma plan_inv lower d' b :
  plan lower = Ok (Some (d', b)) →
  ∃ d, truthy (get lower "title") = true
       ∧ match_downloader DOWNLOADERS (get lower "url") = Ok (Some d)
       ∧ get_id d (get lower "url") = Ok (d', Some b.1.1.1)
       ∧ b = (b.1.1.1, get lower "title",
              or_default (get lower "author") "Unknown",
              or_default (get lower "category") "Uncategorized").
Proof.
  unfold plan.
  destruct (negb (truthy (get lower "url"))
            || negb (truthy (get lower "title"))) eqn:E; [done|].
  apply orb_false_iff in E as [_ E]. apply negb_false_iff in E.
  destruct (match_downloader DOWNLOADERS _) as [[d|]|e] eqn:Hd; [|done..].
  destruct (get_id d _) as [[d1 [sid|]]|e] eqn:Hg; [|done..].
  intros [= <- <-]. by exists d.
Qed.

Lemma match_downloader_truthy url d :
  match_downloader DOWNLOADERS url = Ok (Some d) → truthy url = true.
Proof. destruct url as [| | | |[]|[]|[]]; done. Qed.

(** C9.  Store attempts are paced by pauses of 1, and nothing else is.

    In the trace of a batch, requests to the network, text extraction and
    writes to the table only happen within a store attempt; a store
    attempt starts only when the one before it has been followed by its
    pause; a pause lasts 1 and comes only after a store attempt; and
    when the batch runs to its end no attempt is left without its pause.

    Request by request: a request with a title whose URL resolves to an
    identifier that can be bound and is not in the table does the
    [SELECT], logs its progress and makes its store attempt, which holds
    at least one HTTP request and no pause; when the attempt returns,
    whether it stored or failed, the request pauses for 1 and returns,
    and when the attempt raises, the request raises with it.  Any request
    whose trace holds a pause is such a request, and holds that one pause:
    requests dropped or skipped incur none. *)
Theorem process_input_paced (w : World) (data : list item) (db : store) :
  (∃ p, pacing false (process_input w data db).1.2 = Some p
        ∧ ((process_input w data db).1.1 = Ok tt → p = false))
  ∧ ∀ (total idx : Z) (lower : gmap string jvalue) (db0 : store),
      let r := process_record w total idx lower db0 in
      let resolved d d' sid :=
        truthy (get lower "title") = true
        ∧ match_downloader DOWNLOADERS (get lower "url") = Ok (Some d)
        ∧ get_id d (get lower "url") = Ok (d', Some sid)
        ∧ bind_param sid = Ok tt
        ∧ exists_ (cls d') sid db0 = false in
      (∀ d d' sid,
         resolved d d' sid →
         let attempt :=
           store_in_db w
             (set_book d' (sid, get lower "title",
                           or_default (get lower "author") "Unknown",
                           or_default (get lower "category") "Uncategorized"))
             db0 in
         r.1.1 = attempt.1.1
         ∧ r.1.2 = [EvSelect (name (cls d')) sid;
                    EvLog INFO "Progress %s/%s" [AInt idx; AInt total]]
                   ++ attempt.1.2
                   ++ match attempt.1.1 with
                      | Ok _ => [EvSleep 1]
                      | Raise _ => []
                      end
         ∧ r.2 = attempt.2
         ∧ sleeps attempt.1.2 = []
         ∧ gets attempt.1.2 ≠ [])
      ∧ (sleeps r.1.2 ≠ [] →
         sleeps r.1.2 = [1] ∧ ∃ d d' sid, resolved d d' sid).
Proof.
  split; [unfold process_input; apply process_from_pacing|].
  intros total idx lower db0. cbv zeta. split.
  - intros d d' sid (Ht & Hd & Hg & Hb & He).
    destruct (get_id_typed _ _ _ _ Hg) as (Hc & Hi & _).
    set (bk := (sid, get lower "title",
                or_default (get lower "author") "Unknown",
                or_default (get lower "category") "Uncategorized")).
    destruct (store_in_db_trace w (set_book d' bk) bk sid db0 eq_refl Hi)
      as (t & Htr & Hq & Hgets).
    unfold process_record.
    rewrite (match_downloader_truthy _ _ Hd), Ht. cbn [negb orb].
    rewrite Hd. unfold mbind, M_bind, liftE, liftR, select, log_, emit.
    cbn -[store_in_db]. rewrite Hg. cbn -[store_in_db].
    rewrite Hb, He. cbn -[store_in_db]. fold bk.
    destruct (store_in_db w (set_book d' bk) db0) as [[[[]|e] ta] db1];
      cbn [fst snd app] in *; rewrite ?app_nil_r;
      (split_and!; [done|done|done| |]).
    all: rewrite Htr; cbn [sleeps gets]; first [by apply quiet_sleeps | done].
  - rewrite process_record_eq.
    destruct (plan lower) as [[[d' b]|]|e] eqn:Hp; [|done..].
    destruct (plan_inv _ _ _ Hp) as (d & Ht & Hd & Hg & _).
    cbv zeta. destruct (bind_param _) as [[]|e] eqn:Hb; [|done].
    destruct (exists_ _ _ db0) eqn:He; [done|].
    pose proof (quiet_sleeps _ (download_quiet w d')) as Hq.
    destruct (download w d') as [[[[text|] u]|e] t]; cbn [fst snd] in *.
    + destruct (PyStr.nonempty text); [destruct (fields_of w b u text)|];
        cbn [fst snd attempt_prefix app sleeps];
        rewrite ?sleeps_app, Hq; cbn [app sleeps]; try done;
        intros _; (split; [done|]); by exists d, d', b.1.1.1.
    + cbn [attempt_prefix app sleeps]. rewrite sleeps_app, Hq. cbn.
      intros _. split; [done|]. by exists d, d', b.1.1.1.
    + cbn [attempt_prefix app sleeps]. by rewrite Hq.
Qed.

Lemma process_input_paced_witness :
  let r := process_record Scenario.second_hit 1 1 Scenario.pride_request
             init_database in
  r.1.2
  = [EvSelect "gutenberg_id" (IdInt 1342);
     EvLog INFO "Progress %s/%s" [AInt 1; AInt 1];
     EvLog INFO "Downloading %s (%s)" [AId (IdInt 1342); AStr "gutenberg.org"];
     EvGet Scenario.pride_0 20; EvGet Scenario.pride_1 20;
     EvUpsert "gutenberg_id" (IdInt 1342); EvCommit;
     EvLog INFO "Stored %s successfully" [AId (IdInt 1342)];
     EvSleep 1]
  ∧ length r.2 = 1%nat.
Proof.
  destruct (proj1 (proj2 (process_input_paced Scenario.second_hit [] [])
                     1 1 Scenario.pride_request init_database)
              (new GutenbergDownloader)
              (set_id (new GutenbergDownloader) (IdInt 1342)) (IdInt 1342))
    as (_ & H1 & H2 & _).
  - repeat split; reflexivity.
  - cbv zeta. split; [rewrite H1|rewrite H2]; reflexivity.
Defined.

Example pacing_rejects :
  pacing false [EvSleep 1] = None
  ∧ pacing false (attempt_prefix 2 1 Scenario.pride (IdInt 1342)
                  ++ [EvSleep 2]) = None
  ∧ pacing false (attempt_prefix 2 1 Scenario.pride (IdInt 1342)
                  ++ attempt_prefix 2 2 Scenario.xyz (IdStr "XyZ")) = None
  ∧ pacing false (attempt_prefix 2 1 Scenario.pride (IdInt 1342)
                  ++ [EvSleep 1; EvUpsert "gutenberg_id" (IdInt 1342)]) = None
  ∧ pacing false [EvGet Scenario.pride_0 20] = None
  ∧ pacing false (attempt_prefix 2 1 Scenario.pride (IdInt 1342)
                  ++ [EvSleep 1]
                  ++ attempt_prefix 2 2 Scenario.xyz (IdStr "XyZ")
                  ++ [EvSleep 1]) = Some false.
Proof. repeat split; reflexivity. Qed.

(** *** Defaults of the optional fields *)

(** The loop body reads its record through four lookups only. *)
Lemma process_record_ext w total idx l1 l2 :
  get l1 "url" = get l2 "url" →
  get l1 "title" = get l2 "title" →
  or_default (get l1 "author") "Unknown"
  = or_default (get l2 "author") "Unknown" →
  or_default (get l1 "category") "Uncategorized"
  = or_default (get l2 "category") "Uncategorized" →
  process_record w total idx l1 = process_record w total idx l2.
Proof.
  intros Hu Ht Ha Hc. unfold process_record. cbv zeta.
  rewrite Hu, Ht, Ha, Hc. done.
Qed.

(** Dropping the keys that normalise to [k] deletes [k] from the
    normalised record. *)
Lemma lower_items_without_go k items (m : gmap string jvalue) :
  fold_left (λ m kv, <[PyStr.lower kv.1 := kv.2]> m)
    (List.filter (λ kv, negb (String.eqb (PyStr.lower kv.1) k)) items)
    (delete k m)
  = delete k (fold_left (λ m kv, <[PyStr.lower kv.1 := kv.2]> m) items m).
Proof.
  revert m. induction items as [|[k' v] items IH]; intros m; [done|].
  cbn [List.filter fold_left fst snd].
  destruct (String.eqb (PyStr.lower k') k) eqn:E; cbn [negb].
  - apply String.eqb_eq in E. subst k.
    rewrite <- IH. by rewrite delete_insert_eq.
  - apply String.eqb_neq in E. cbn [fold_left fst snd].
    rewrite <- IH. by rewrite delete_insert_ne.
Qed.

Lemma lower_keys_without k it lower :
  lower_keys it = Ok lower →
  lower_keys (without k it) = Ok (delete k lower).
Proof.
  destruct it; try done. intros [= <-]. cbn [without lower_keys]. f_equal.
  unfold lower_items. rewrite <- lower_items_without_go.
  by rewrite delete_empty.
Qed.

Lemma get_delete_ne (lower : gmap string jvalue) k k' :
  k ≠ k' → get (delete k lower) k' = get lower k'.
Proof. intros H. unfold get. by rewrite lookup_delete_ne. Qed.

Lemma or_default_falsy (lower : gmap string jvalue) k v dflt :
  lower !! k = Some v → truthy v = false →
  or_default (get lower k) dflt = JStr dflt
  ∧ or_default (get (delete k lower) k) dflt = JStr dflt.
Proof.
  intros Hk Hv. unfold get, or_default.
  rewrite Hk, lookup_delete_eq. cbn. by rewrite Hv.
Qed.

(** What is stored is what was bound, in the order of the tuple. *)
Lemma bind_fields_inv w author user_title category url text f :
  bind_fields w author user_title category url text = Ok f →
  ∃ a t c, bind_value author = Ok a ∧ bind_value user_title = Ok t
           ∧ bind_value category = Ok c
           ∧ f = {| f_author := text_affinity w a;
                    f_title := text_affinity w t;
                    f_category := text_affinity w c;
                    f_source_url := url; f_content := text |}.
Proof.
  unfold bind_fields.
  destruct (bind_value author) as [a|]; [|done].
  destruct (bind_value user_title) as [t|]; [|done].
  destruct (bind_value category) as [c|]; [|done].
  cbn. intros [= <-]. by exists a, t, c.
Qed.

(** One request leaves the table as it is or appends the row of its
    book. *)
Lemma process_record_row w total idx lower db :
  (process_record w total idx lower db).2 = db
  ∨ ∃ d sid u text f,
      plan lower
      = Ok (Some (d, (sid, get lower "title",
                      or_default (get lower "author") "Unknown",
                      or_default (get lower "category") "Uncategorized")))
      ∧ (download w d).1 = Ok (Some text, u)
      ∧ bind_fields w (or_default (get lower "author") "Unknown")
          (get lower "title")
          (or_default (get lower "category") "Uncategorized") u text = Ok f
      ∧ (process_record w total idx lower db).2
        = db ++ [new_row (next_rowid db) (cls d) sid f].
Proof.
  rewrite process_record_eq.
  destruct (plan lower) as [[[d b]|]|e] eqn:Hp; [|by left..].
  destruct (plan_inv _ _ _ Hp) as (d0 & _ & _ & _ & Hb).
  destruct b as [[[sid t] a] c]. cbn [fst snd] in Hb.
  injection Hb as -> -> ->.
  cbv zeta. cbn [fst snd]. destruct (bind_param sid) as [[]|e]; [|by left].
  destruct (exists_ (cls d) sid db) eqn:E; [by left|].
  destruct (download w d) as [[[[text|] u]|e] tr] eqn:Hd; [|by left..].
  destruct (PyStr.nonempty text); [|by left].
  destruct (fields_of w _ u text) as [f|e] eqn:Hf; [|by left].
  right. exists d, sid, u, text, f.
  split_and!; [done|by rewrite Hd|exact Hf|].
  cbn [snd]. unfold upsert. by rewrite E.
Qed.

(** C10.  An [author] or [category] key that is present with a falsy
    value (null, the empty string, or any other value Python takes for
    false) gives the field its default: the request is processed exactly
    as the record without that key is, and when it stores a row, the
    author of that row is "Unknown", respectively its category
    "Uncategorized". *)
Theorem process_item_falsy_default (w : World) (total idx : Z) (it : item)
    (lower : gmap string jvalue) (k : string) (v : jvalue) (db : store) :
  k = "author" ∨ k = "category" →
  lower_keys it = Ok lower →
  lower !! k = Some v →
  truthy v = false →
  process_item w total idx it = process_item w total idx (without k it)
  ∧ let run := process_item w total idx it db in
    (run.2 = db
     ∨ ∃ r, run.2 = db ++ [r]
            ∧ (k = "author" → author r = Some "Unknown")
            ∧ (k = "category" → category r = Some "Uncategorized")).
Proof.
  intros Hk Hl Hl' Hv. split.
  - unfold process_item. rewrite (lower_keys_without k it lower Hl), Hl.
    unfold mbind, M_bind, liftE, liftR. cbv beta iota.
    assert (process_record w total idx lower
            = process_record w total idx (delete k lower)) as ->; [|done].
    destruct Hk as [-> | ->]; apply process_record_ext;
      rewrite ?get_delete_ne by done; try done.
    + destruct (or_default_falsy lower "author" v "Unknown" Hl' Hv)
        as [-> ->]. done.
    + destruct (or_default_falsy lower "category" v "Uncategorized" Hl' Hv)
        as [-> ->]. done.
  - unfold process_item. rewrite Hl. cbv zeta.
    unfold mbind, M_bind, liftE, liftR.
    destruct (process_record_row w total idx lower db)
      as [H|(d & sid & u & text & f & _ & _ & Hf & H)].
    + left. destruct (process_record w total idx lower db) as [[? ?] ?].
      exact H.
    + right. exists (new_row (next_rowid db) (cls d) sid f). split.
      * destruct (process_record w total idx lower db) as [[? ?] ?].
        exact H.
      * destruct (bind_fields_inv _ _ _ _ _ _ _ Hf)
          as (a & t & c & Ha & _ & Hc & ->).
        cbn [new_row author category f_author f_category].
        split; intros ->.
        -- destruct (or_default_falsy lower "author" v "Unknown" Hl' Hv)
             as [E _]. rewrite E in Ha. by injection Ha as <-.
        -- destruct (or_default_falsy lower "category" v "Uncategorized"
                       Hl' Hv) as [E _].
           rewrite E in Hc. by injection Hc as <-.
Qed.

Lemma process_item_falsy_default_witness :
  ∃ r, (process_item Scenario.second_hit 1 1 Scenario.pride_item
          init_database).2 = [r]
       ∧ author r = Some "Unknown".
Proof.
  destruct (process_item_falsy_default Scenario.second_hit 1 1
              Scenario.pride_item _ "author" (JStr "") init_database
              (or_introl eq_refl) eq_refl eq_refl eq_refl)
    as [_ [H|(r & Hr & Ha & _)]].
  - vm_compute in H. discriminate H.
  - exists r. split; [exact Hr|exact (Ha eq_refl)].
Defined.

Example author_defaults :
  (process_item Scenario.second_hit 1 1 Scenario.pride_item init_database).2
  = [ {| rowid := 1; gutenberg_id := Some (IdInt 1342); ia_title_id := None;
         gb_title_id := None; author := Some "Unknown";
         title := Some "Pride and Prejudice";
         category := Some "Uncategorized";
         source_url := Some Scenario.pride_1;
         content_ := Some Scenario.pride_text |} ].
Proof. vm_compute. reflexivity. Qed.

(** *** Idempotence of a batch *)

Lemma extends_refl db : extends db db.
Proof. by intros c i. Qed.

Lemma extends_trans db1 db2 db3 :
  extends db1 db2 → extends db2 db3 → extends db1 db3.
Proof. intros H1 H2 c i H. by apply H2, H1. Qed.

(** A request never takes an identifier out of the table. *)
Lemma process_record_extends w total idx lower db :
  extends db (process_record w total idx lower db).2.
Proof.
  rewrite process_record_eq.
  destruct (plan lower) as [[[d b]|]|e]; [|apply extends_refl..].
  cbv zeta. destruct (bind_param _) as [[]|e]; [|apply extends_refl].
  destruct (exists_ _ _ db); [apply extends_refl|].
  destruct (download w d) as [[[[text|] u]|e] t]; [|apply extends_refl..].
  destruct (PyStr.nonempty text); [|apply extends_refl].
  destruct (fields_of w b u text); [apply upsert_extends|apply extends_refl].
Qed.

Lemma process_from_extends w total idx data db :
  extends db (process_from w total idx data db).2.
Proof.
  revert idx db. induction data as [|it data IH]; intros idx db;
    [apply extends_refl|].
  cbn [process_from]. unfold process_item.
  destruct (lower_keys it) as [lower|e]; [|apply extends_refl].
  unfold mbind, M_bind, liftE, liftR. cbv beta iota.
  pose proof (process_record_extends w total idx lower db) as H1.
  destruct (process_record w total idx lower db)
    as [[[[]|e] t] db1]; cbn [fst snd] in *; [|done].
  specialize (IH (idx + 1) db1).
  destruct (process_from w total (idx + 1) data db1) as [[r t'] db2].
  cbn [fst snd] in *. by eapply extends_trans.
Qed.

(** A request that returned leaves itself settled. *)
Lemma process_record_settles w total idx lower db t db' :
  process_record w total idx lower db = ((Ok tt, t), db') →
  settled w lower db'.
Proof.
  rewrite process_record_eq. unfold settled.
  destruct (plan lower) as [[[d b]|]|e]; [|done..].
  cbv zeta. destruct (bind_param _) as [[]|e]; [|done].
  destruct (exists_ _ _ db) eqn:E.
  { intros [= _ <-]. auto. }
  destruct (download w d) as [[[[text|] u]|e] tr]; cbn [fst snd].
  - destruct (PyStr.nonempty text) eqn:En.
    + destruct (fields_of w b u text); [|done].
      intros [= _ <-]. split; [done|]. left. apply upsert_exists.
    + intros [= _ <-]. auto.
  - intros [= _ <-]. auto.
  - done.
Qed.

(** A settled request returns and leaves the table as it is. *)
Lemma settled_stable w total idx lower db :
  settled w lower db →
  ∃ t, process_record w total idx lower db = ((Ok tt, t), db).
Proof.
  rewrite process_record_eq. unfold settled.
  destruct (plan lower) as [[[d b]|]|e]; [|by eauto|done].
  cbv zeta. intros [-> H].
  destruct (exists_ _ _ db); [by eauto|].
  destruct H as [|H]; [done|]. 
  destruct (download w d) as [[[[text|] u]|e] tr]; cbn [fst snd] in H.
  - rewrite H. eauto.
  - eauto.
  - done.
Qed.

Lemma settled_extends w lower db db' :
  settled w lower db → extends db db' → settled w lower db'.
Proof.
  unfold settled. destruct (plan lower) as [[[d b]|]|e]; [|done..].
  intros [Hb [H|H]] He; split; auto.
Qed.

(** A request that raised left the table as it was, and raises again on
    the same table. *)
Lemma process_record_raises w total idx lower db e t db' :
  process_record w total idx lower db = ((Raise e, t), db') →
  db' = db
  ∧ ∀ total' idx',
      ∃ t', process_record w total' idx' lower db = ((Raise e, t'), db).
Proof.
  rewrite process_record_eq.
  intros H.
  destruct (plan lower) as [[[d b]|]|e0] eqn:Hp.
  - cbv zeta in H. destruct (bind_param _) as [[]|e1] eqn:Hb.
    + destruct (exists_ _ _ db) eqn:E; [done|].
      destruct (download w d) as [[[[text|] u]|e1] tr] eqn:Hd.
      * destruct (PyStr.nonempty text) eqn:En; [|done].
        destruct (fields_of w b u text) as [f|e1] eqn:Hf; [done|].
        injection H as <- _ <-. split; [done|]. intros total' idx'.
        rewrite process_record_eq, Hp. cbv zeta.
        rewrite Hb, E, Hd, En, Hf. eauto.
      * done.
      * injection H as <- _ <-. split; [done|]. intros total' idx'.
        rewrite process_record_eq, Hp. cbv zeta. rewrite Hb, E, Hd. eauto.
    + injection H as <- _ <-. split; [done|]. intros total' idx'.
      rewrite process_record_eq, Hp. cbv zeta. rewrite Hb. eauto.
  - done.
  - injection H as <- _ <-. split; [done|]. intros total' idx'.
    rewrite process_record_eq, Hp. eauto.
Qed.

Lemma process_from_idempotent w data :
  ∀ total idx total' idx' db,
    (process_from w total' idx' data (process_from w total idx data db).2).2
    = (process_from w total idx data db).2.
Proof.
  induction data as [|it data IH]; intros total idx total' idx' db; [done|].
  cbn [process_from]. unfold process_item.
  destruct (lower_keys it) as [lower|e0]; [|done].
  unfold mbind, M_bind, liftE, liftR. cbv beta iota.
  destruct (process_record w total idx lower db)
    as [[[[]|e] t] db1] eqn:H1.
  - pose proof (process_record_settles _ _ _ _ _ _ _ H1) as Hs.
    pose proof (process_from_extends w total (idx + 1) data db1) as He.
    pose proof (IH total (idx + 1) total' (idx' + 1) db1) as IH1.
    destruct (process_from w total (idx + 1) data db1) as [[r t1] db2].
    cbn [fst snd] in *.
    destruct (settled_stable w total' idx' lower db2) as [t2 ->];
      [by eapply settled_extends|].
    destruct (process_from w total' (idx' + 1) data db2) as [[r' t3] db3].
    done.
  - destruct (process_record_raises _ _ _ _ _ _ _ _ H1) as [-> Hr].
    cbn [fst snd]. destruct (Hr total' idx') as [t' ->]. done.
Qed.

(** C2.  Running a batch a second time, in the same world, on the table
    the first run left yields that very table: the same rows, in the
    same order, with the same contents. *)
Theorem process_input_idempotent (w : World) (data : list item) (db : store) :
  let db1 := (process_input w data db).2 in
  (process_input w data db1).2 = db1
  ∧ length (process_input w data db1).2 = length db1.
Proof.
  cbv zeta. unfold process_input.
  by rewrite process_from_idempotent.
Qed.

(** X11.  A batch keeps the identifier columns free of duplicates: if
    no column holds a value twice before [process_input], none does
    after it, whatever the requests and the network. *)
Lemma process_input_unique w data db :
  unique_ids db → unique_ids (process_input w data db).2.
Proof.
  unfold process_input. generalize (Z.of_nat (length data)) 1.
  intros total idx. revert idx db.
  induction data as [|it data IH]; intros idx db H; [done|].
  cbn [process_from]. unfold process_item.
  destruct (lower_keys it) as [lower|e0]; [|done].
  unfold mbind, M_bind, liftE, liftR. cbv beta iota.
  assert (unique_ids (process_record w total idx lower db).2) as H1.
  { rewrite process_record_eq.
    destruct (plan lower) as [[[d b]|]|e]; [|done..].
    cbv zeta. destruct (bind_param _) as [[]|e]; [|done].
    destruct (exists_ _ _ db); [done|].
    destruct (download w d) as [[[[text|] u]|e] t]; [|done..].
    destruct (PyStr.nonempty text); [|done].
    destruct (fields_of w b u text); [by apply upsert_unique|done]. }
  destruct (process_record w total idx lower db)
    as [[[[]|e] t] db1]; cbn [fst snd] in *; [|done].
  specialize (IH (idx + 1) db1 H1).
  by destruct (process_from w total (idx + 1) data db1) as [[r t'] db2].
Qed.

Example batch_twice :
  let data := [Scenario.pride_item; Scenario.pride_item] in
  let run1 := process_input Scenario.second_hit data init_database in
  let run2 := process_input Scenario.second_hit data run1.2 in
  length run1.2 = 1%nat ∧ run2.2 = run1.2
  ∧ gets run1.1.2 = [Scenario.pride_0; Scenario.pride_1]
  ∧ gets run2.1.2 = [].
Proof. vm_compute. repeat split; reflexivity. Qed.

(** * Further properties *)

(** ** Resolution *)

(** The registration order decides between sources: a URL that
    contains [gutenberg.org] is Gutenberg's whatever else it contains, one
    that contains [archive.org] but not [gutenberg.org] is the Internet
    Archive's, one that contains only [books.google.] is Google Books',
    and a URL with none of the three tokens matches no source.  The
    instance returned is always a fresh one. *)
Lemma match_downloader_precedence (url : string) :
  match_downloader DOWNLOADERS (JStr url)
  = Ok (if PyStr.contains "gutenberg.org" url
        then Some (new GutenbergDownloader)
        else if PyStr.contains "archive.org" url
             then Some (new InternetArchiveDownloader)
             else if PyStr.contains "books.google." url
                  then Some (new GoogleBooksDownloader)
                  else None).
Proof.
  cbn. destruct (PyStr.contains "gutenberg.org" url); [done|].
  destruct (PyStr.contains "archive.org" url); [done|].
  by destruct (PyStr.contains "books.google." url).
Qed.

(** *** Splitting *)

Lemma startswith_cons_ne c0 sep c s :
  c ≠ c0 → PyStr.startswith (String c0 sep) (String c s) = false.
Proof.
  intros H. unfold PyStr.startswith. cbn.
  destruct (ascii_dec c0 c); [congruence|done].
Qed.

(** Without the separator there is one piece, the whole string. *)
Lemma split_go_absent sep s :
  PyStr.contains sep s = false → PyStr.split_go sep s 0 = (s, []).
Proof.
  induction s as [|c s IH]; [done|]. cbn [PyStr.contains PyStr.split_go].
  intros [H1 H2]%orb_false_iff. rewrite H1, (IH H2). done.
Qed.

Lemma contains_has_char c0 sep s :
  has_char c0 s = false → PyStr.contains (String c0 sep) s = false.
Proof.
  induction s as [|c s IH]; [done|]. cbn [has_char PyStr.contains].
  intros [H1 H2]%orb_false_iff. rewrite (IH H2).
  rewrite startswith_cons_ne; [done|].
  intros ->. by rewrite Ascii.eqb_refl in H1.
Qed.

Lemma has_char_app c a b :
  has_char c (a +:+ b) = has_char c a || has_char c b.
Proof.
  induction a as [|c' a IH]; [done|]. simpl. by rewrite IH, orb_assoc.
Qed.

(** The first piece ends where a one-character separator first occurs. *)
Lemma split_go_first_char c0 a t :
  has_char c0 a = false → empty_or_starts c0 t = true →
  (PyStr.split_go (String c0 "") (a +:+ t) 0).1 = a.
Proof.
  intros Ha Ht. induction a as [|c a IH].
  - change ("" +:+ t) with t. destruct t as [|c t]; [done|]. cbn in Ht.
    apply Ascii.eqb_eq in Ht. subst c. cbn [PyStr.split_go].
    unfold PyStr.startswith. cbn. destruct (ascii_dec c0 c0); [|done].
    by destruct t.
  - cbn [has_char] in Ha. apply orb_false_iff in Ha as [H1 H2].
    change (String c a +:+ t) with (String c (a +:+ t)).
    cbn [PyStr.split_go].
    rewrite startswith_cons_ne
      by (intros ->; by rewrite Ascii.eqb_refl in H1).
    specialize (IH H2). destruct (PyStr.split_go _ (a +:+ t) 0). cbn in *.
    by subst.
Qed.

(** *** Decimal literals *)

Lemma rev_app_rev_app s a b :
  String.rev_app (String.rev_app s a) b = String.rev_app a (s +:+ b).
Proof.
  revert a b. induction s as [|c s IH]; intros a b; [done|].
  cbn [String.rev_app]. rewrite IH. done.
Qed.

Lemma string_app_nil_r s : s +:+ "" = s.
Proof.
  induction s as [|c s IH]; [done|].
  change (String c s +:+ "") with (String c (s +:+ "")). by rewrite IH.
Qed.

Lemma rev_involutive s : String.rev (String.rev s) = s.
Proof.
  unfold String.rev. rewrite rev_app_rev_app. cbn. apply string_app_nil_r.
Qed.

Lemma all_chars_rev_app P s a :
  all_chars P (String.rev_app s a) = all_chars P s && all_chars P a.
Proof.
  revert a. induction s as [|c s IH]; intros a; [done|].
  cbn [String.rev_app all_chars]. rewrite IH. cbn [all_chars].
  destruct (P c), (all_chars P s); done.
Qed.

Lemma int_lstrip_id s :
  all_chars (λ c, negb (PyStr.is_int_space c)) s = true →
  PyStr.int_lstrip s = s.
Proof.
  destruct s as [|c s]; [done|]. cbn [all_chars PyStr.int_lstrip].
  intros [H _]%andb_true_iff. apply negb_true_iff in H. by rewrite H.
Qed.

(** A literal without blanks is read as it stands. *)
Lemma int_body_id s :
  all_chars (λ c, negb (PyStr.is_int_space c)) s = true →
  String.rev (PyStr.int_lstrip (String.rev (PyStr.int_lstrip s))) = s.
Proof.
  intros H. rewrite (int_lstrip_id s H), int_lstrip_id, rev_involutive; [done|].
  unfold String.rev. rewrite all_chars_rev_app, H. done.
Qed.

Lemma pretty_N_char_digit m :
  (m < 10)%N →
  PyStr.is_digit (pretty_N_char m) = true
  ∧ PyStr.digit_val (pretty_N_char m) = Z.of_N m
  ∧ PyStr.is_int_space (pretty_N_char m) = false.
Proof.
  intros H.
  assert (m = 0 ∨ m = 1 ∨ m = 2 ∨ m = 3 ∨ m = 4 ∨ m = 5 ∨ m = 6 ∨ m = 7
          ∨ m = 8 ∨ m = 9)%N as Hm by lia.
  repeat (destruct Hm as [->|Hm]); try subst m; done.
Qed.

(** The digits [pretty] puts before [s]: they are as many as the number
    has decimal places, and are read back as the number. *)
Lemma int_digits_pretty_go x :
  (0 < x)%N →
  ∃ k : Z, 1 ≤ k ∧ 10 ^ (k - 1) ≤ Z.of_N x < 10 ^ k
    ∧ (∀ s, PyStr.count_digits (pretty_N_go x s) = k + PyStr.count_digits s)
    ∧ ∀ s acc prev,
        PyStr.int_digits (pretty_N_go x s) acc prev
        = PyStr.int_digits s (acc * 10 ^ k + Z.of_N x) true.
Proof.
  induction (N.lt_wf_0 x) as [x _ IH]. intros Hx.
  destruct (pretty_N_char_digit (x `mod` 10)%N) as (Hd & Hv & _).
  { apply N.mod_lt. lia. }
  pose proof (N.div_mod x 10 ltac:(done)) as Hdm.
  assert (x `mod` 10 < 10)%N as Hm by (apply N.mod_lt; lia).
  destruct (decide (x `div` 10 = 0)%N) as [H0|H0].
  - exists 1. split; [lia|]. split; [|split].
    + change (10 ^ (1 - 1)) with 1. change (10 ^ 1) with 10. lia.
    + intros s. rewrite pretty_N_go_step, H0, pretty_N_go_0 by done.
      cbn [PyStr.count_digits]. by rewrite Hd.
    + intros s acc prev.
      rewrite pretty_N_go_step, H0, pretty_N_go_0 by done.
      cbn [PyStr.int_digits]. rewrite Hd, Hv. f_equal.
      rewrite Z.pow_1_r. lia.
  - destruct (IH (x `div` 10)%N) as (k & Hk & Hb & Hc & IHk).
    { apply N.div_lt; lia. } { by apply N.neq_0_lt_0. }
    exists (k + 1). split; [lia|]. split; [|split].
    + replace (k + 1 - 1) with k by lia.
      rewrite Z.pow_add_r, Z.pow_1_r by lia.
      assert (10 ^ k = 10 * 10 ^ (k - 1)) as Hpk.
      { replace k with (k - 1 + 1) at 1 by lia.
        rewrite Z.pow_add_r, Z.pow_1_r by lia. lia. }
      assert (Z.of_N x = 10 * Z.of_N (x `div` 10) + Z.of_N (x `mod` 10)
              ∧ 0 ≤ Z.of_N (x `mod` 10) < 10) as [Hz Hz'].
      { split.
        - rewrite Hdm at 1. by rewrite N2Z.inj_add, N2Z.inj_mul.
        - clear -Hm. revert Hm. generalize (x `mod` 10)%N. lia. }
      revert Hb Hpk Hz Hz'.
      generalize (10 ^ k) (10 ^ (k - 1)) (Z.of_N (x `div` 10))
        (Z.of_N (x `mod` 10)) (Z.of_N x).
      intros P Q a b c Hb Hpk Hz Hz'. lia.
    + intros s. rewrite pretty_N_go_step, Hc by done.
      cbn [PyStr.count_digits]. rewrite Hd. lia.
    + intros s acc prev.
      rewrite pretty_N_go_step, IHk by done.
      cbn [PyStr.int_digits]. rewrite Hd, Hv. f_equal.
      rewrite Z.pow_add_r, Z.pow_1_r by lia.
      generalize (10 ^ k). intros P. lia.
Qed.

Lemma all_chars_pretty_go P x s :
  (∀ m, (m < 10)%N → P (pretty_N_char m) = true) →
  all_chars P s = true → all_chars P (pretty_N_go x s) = true.
Proof.
  intros HP. revert s. induction (N.lt_wf_0 x) as [x _ IH]. intros s Hs.
  destruct (decide (x = 0)%N) as [->|H0]; [by rewrite pretty_N_go_0|].
  rewrite pretty_N_go_step by lia. apply IH.
  - apply N.div_lt; lia.
  - cbn [all_chars]. rewrite HP, Hs; [done|]. apply N.mod_lt. lia.
Qed.

Lemma digit_not_space c :
  PyStr.is_digit c = true → PyStr.is_int_space c = false.
Proof. destruct c as [[] [] [] [] [] [] [] []]; done. Qed.

Lemma digits_no_space s :
  all_chars PyStr.is_digit s = true →
  all_chars (λ c, negb (PyStr.is_int_space c)) s = true.
Proof.
  induction s as [|c s IH]; [done|]. cbn [all_chars].
  intros [H1 H2]%andb_true_iff. by rewrite (digit_not_space c H1), IH.
Qed.

(** A literal of digits only has no sign to take off. *)
Lemma int_unsigned s :
  all_chars PyStr.is_digit s = true →
  PyStr.int s
  = if PyStr.int_max_str_digits <? PyStr.count_digits s then None
    else PyStr.int_digits s 0 false.
Proof.
  intros H. unfold PyStr.int. rewrite int_body_id by by apply digits_no_space.
  destruct (_ <? _); [done|].
  destruct s as [|c rest]; [done|]. cbn [all_chars] in H.
  apply andb_true_iff in H as [H _].
  destruct c as [[] [] [] [] [] [] [] []]; done.
Qed.

(** A literal of a minus and digits. *)
Lemma int_negative s :
  all_chars PyStr.is_digit s = true →
  PyStr.int (String "-" s)
  = if PyStr.int_max_str_digits <? PyStr.count_digits s then None
    else Z.opp <$> PyStr.int_digits s 0 false.
Proof.
  intros H. unfold PyStr.int. rewrite int_body_id.
  - cbn [PyStr.count_digits]. change (PyStr.is_digit "-") with false.
    cbv iota. done.
  - cbn [all_chars]. by rewrite digits_no_space.
Qed.

(** The literals [int()] converts are those under 10^4300. *)
Lemma int_max_str_digits_bound x k :
  1 ≤ k → 10 ^ (k - 1) ≤ x < 10 ^ k →
  (PyStr.int_max_str_digits <? k) = negb (bool_decide (x < 10 ^ 4300)).
Proof.
  intros Hk [H1 H2]. unfold PyStr.int_max_str_digits.
  destruct (Z.ltb_spec 4300 k) as [H|H]; symmetry.
  - apply negb_true_iff, bool_decide_eq_false. intros Hx.
    assert (10 ^ 4300 ≤ 10 ^ (k - 1)) by (apply Z.pow_le_mono_r; lia).
    revert H1 Hx H0. generalize (10 ^ (k - 1)) (10 ^ 4300). lia.
  - apply negb_false_iff, bool_decide_eq_true.
    assert (10 ^ k ≤ 10 ^ 4300) by (apply Z.pow_le_mono_r; lia).
    revert H2 H0. generalize (10 ^ k) (10 ^ 4300). lia.
Qed.

Lemma int_pretty_pos (p : positive) :
  all_chars PyStr.is_digit (pretty_N_go (N.pos p) "") = true
  ∧ PyStr.int_digits (pretty_N_go (N.pos p) "") 0 false = Some (Z.pos p)
  ∧ (PyStr.int_max_str_digits <? PyStr.count_digits (pretty_N_go (N.pos p) ""))
    = negb (bool_decide (Z.pos p < 10 ^ 4300)).
Proof.
  split; [|split].
  - apply all_chars_pretty_go; [|done]. intros m Hm.
    by destruct (pretty_N_char_digit m Hm) as (-> & _ & _).
  - destruct (int_digits_pretty_go (N.pos p)) as (k & _ & _ & _ & Hk); [lia|].
    rewrite Hk. done.
  - destruct (int_digits_pretty_go (N.pos p)) as (k & Hk & Hb & Hc & _);
      [lia|].
    rewrite Hc. cbn [PyStr.count_digits]. rewrite Z.add_0_r.
    by apply int_max_str_digits_bound.
Qed.

(** Reading back what an f-string renders gives the number, up to the
    limit of [int()]. *)
Lemma int_of_int n :
  PyStr.int (PyStr.of_int n)
  = if bool_decide (Z.abs n < 10 ^ 4300) then Some n else None.
Proof.
  unfold PyStr.of_int, pretty, pretty_Z. destruct n as [|p|p].
  - rewrite bool_decide_eq_true_2; [done|]. by apply Z.pow_pos_nonneg.
  - destruct (int_pretty_pos p) as (Hd & Hv & Hl).
    unfold pretty, pretty_positive, pretty, pretty_N.
    destruct (decide (N.pos p = 0%N)) as [|_]; [done|].
    rewrite int_unsigned, Hl, Hv by done. cbn [Z.abs].
    by destruct (bool_decide _).
  - destruct (int_pretty_pos p) as (Hd & Hv & Hl).
    unfold pretty, pretty_positive, pretty, pretty_N.
    destruct (decide (N.pos p = 0%N)) as [|_]; [done|].
    change ("-" +:+ pretty_N_go (N.pos p) "")
      with (String "-" (pretty_N_go (N.pos p) "")).
    rewrite int_negative, Hl, Hv by done. cbn [Z.abs].
    by destruct (bool_decide _).
Qed.

Example int_limit_ex :
  PyStr.int (String.concat "" (repeat "1" 4300)) ≠ None
  ∧ PyStr.int (String.concat "" (repeat "1" 4301)) = None
  ∧ PyStr.int (String.concat "" (repeat "0" 4301)) = None
  ∧ PyStr.int (" -" +:+ String.concat "" (repeat "1_" 4299) +:+ "1 ") ≠ None.
Proof. vm_compute. repeat split; discriminate. Qed.

(** *** Canonical URLs are resolved to their identifier *)

Lemma prefix_nil s : String.prefix "" s = true.
Proof. by destruct s. Qed.

(** Before the first character of the separator occurs, nothing is cut. *)
Lemma split_go_first_app c0 sep s t :
  has_char c0 s = false →
  (PyStr.split_go (String c0 sep) (s +:+ t) 0).1
  = s +:+ (PyStr.split_go (String c0 sep) t 0).1.
Proof.
  intros Hs. induction s as [|c s IH]; [done|].
  cbn [has_char] in Hs. apply orb_false_iff in Hs as [H1 H2].
  change (String c s +:+ t) with (String c (s +:+ t)).
  cbn [PyStr.split_go].
  rewrite startswith_cons_ne by (intros ->; by rewrite Ascii.eqb_refl in H1).
  specialize (IH H2). destruct (PyStr.split_go _ (s +:+ t) 0). cbn in *.
  by rewrite IH.
Qed.

Lemma split_go_first_starts c sep t :
  empty_or_starts c t = true →
  empty_or_starts c (PyStr.split_go sep t 0).1 = true.
Proof.
  destruct t as [|c' t]; [done|]. cbn [PyStr.split_go].
  intros H. destruct (PyStr.startswith sep _); [done|].
  by destruct (PyStr.split_go sep t 0).
Qed.

Lemma all_chars_has_char P c s :
  all_chars P s = true → P c = false → has_char c s = false.
Proof.
  intros Hs Hc. induction s as [|c' s IH]; [done|]. cbn [all_chars has_char] in *.
  apply andb_true_iff in Hs as [H1 H2]. rewrite (IH H2), orb_false_r.
  apply Ascii.eqb_neq. intros ->. congruence.
Qed.

(** A decimal rendering holds digits and at most a leading minus. *)
Lemma of_int_chars n :
  all_chars (λ c, PyStr.is_digit c || Ascii.eqb c "-") (PyStr.of_int n) = true.
Proof.
  assert (∀ x, all_chars (λ c, PyStr.is_digit c || Ascii.eqb c "-")
                 (pretty_N_go x "") = true) as H.
  { intros x. apply all_chars_pretty_go; [|done]. intros m Hm.
    by destruct (pretty_N_char_digit m Hm) as (-> & _ & _). }
  unfold PyStr.of_int, pretty, pretty_Z. destruct n as [|p|p]; [done|..].
  - unfold pretty, pretty_positive, pretty, pretty_N. case_decide; [done|].
    apply H.
  - unfold pretty, pretty_positive, pretty, pretty_N. case_decide; [done|].
    change ("-" +:+ pretty_N_go (N.pos p) "")
      with (String "-" (pretty_N_go (N.pos p) "")).
    cbn [all_chars]. by rewrite H.
Qed.

(** X2.  A Project Gutenberg book page resolves to its number, as far
    as [int()] reads it: for every integer [n] of at most 4300 digits, the
    URL [https://www.gutenberg.org/ebooks/<n>], alone or followed by a
    query string, gives the identifier [n], the one its candidate download
    URLs are built from; for a longer number it gives no identifier. *)
Theorem get_id_gutenberg_ebooks (n : Z) (t : string) :
  empty_or_starts "?" t = true →
  get_id (new GutenbergDownloader)
    (JStr ("https://www.gutenberg.org/ebooks/" +:+ PyStr.of_int n +:+ t))
  = if bool_decide (Z.abs n < 10 ^ 4300)
    then Ok (set_id (new GutenbergDownloader) (IdInt n), Some (IdInt n))
    else Ok (new GutenbergDownloader, None).
Proof.
  intros Ht. set (R := PyStr.of_int n +:+ t).
  assert (PyStr.contains "/ebooks/" ("https://www.gutenberg.org/ebooks/" +:+ R)
          = true) as Hc.
  { expose_app R. cbn. by rewrite prefix_nil. }
  assert (PyStr.split "/ebooks/" ("https://www.gutenberg.org/ebooks/" +:+ R)
          !! 1%nat = Some (PyStr.split_go "/ebooks/" R 0).1) as Hs.
  { unfold PyStr.split.
    destruct (PyStr.split_go "/ebooks/" R 0) as [p ps] eqn:E.
    expose_app R. cbn. by rewrite prefix_nil, E. }
  unfold get_id. cbn [cls new py_in py_split mbind result_bind].
  rewrite Hc. cbn [negb].
  unfold index. rewrite Hs. cbn [mbind result_bind].
  unfold R at 1. rewrite split_go_first_app
    by (eapply all_chars_has_char; [apply of_int_chars|done]).
  assert (PyStr.split "?"
            (PyStr.of_int n +:+ (PyStr.split_go "/ebooks/" t 0).1) !! 0%nat
          = Some (PyStr.of_int n)) as ->.
  { unfold PyStr.split.
    pose proof (split_go_first_char "?" (PyStr.of_int n)
                  (PyStr.split_go "/ebooks/" t 0).1) as H.
    destruct (PyStr.split_go "?" _ 0) as [p ps]. cbn in *. f_equal.
    apply H.
    - eapply all_chars_has_char; [apply of_int_chars|done].
    - by apply split_go_first_starts. }
  cbn [mbind result_bind]. rewrite int_of_int.
  by destruct (bool_decide _).
Qed.

Lemma get_id_gutenberg_ebooks_witness :
  get_id (new GutenbergDownloader)
    (JStr ("https://www.gutenberg.org/ebooks/" +:+ PyStr.of_int 1342
             +:+ "?utm=/ebooks/7"))
  = Ok (set_id (new GutenbergDownloader) (IdInt 1342), Some (IdInt 1342)).
Proof.
  pose proof (get_id_gutenberg_ebooks 1342 "?utm=/ebooks/7" eq_refl) as H.
  rewrite bool_decide_eq_true_2 in H; [exact H|].
  vm_compute. reflexivity.
Defined.

(** X3.  An Internet Archive item page resolves to its item name: the
    URL [https://archive.org/details/<name>], for a name without a slash,
    alone or followed by a further path, gives the identifier [name]. *)
Theorem get_id_archive_details (s t : string) :
  has_char "/" s = false →
  empty_or_starts "/" t = true →
  get_id (new InternetArchiveDownloader)
    (JStr ("https://archive.org/details/" +:+ s +:+ t))
  = Ok (set_id (new InternetArchiveDownloader) (IdStr s), Some (IdStr s)).
Proof.
  intros Hs Ht. set (R := s +:+ t).
  assert (PyStr.contains "/details/" ("https://archive.org/details/" +:+ R)
          = true) as Hc.
  { expose_app R. cbn. by rewrite prefix_nil. }
  assert (PyStr.split "/details/" ("https://archive.org/details/" +:+ R)
          !! 1%nat = Some (PyStr.split_go "/details/" R 0).1) as Hsp.
  { unfold PyStr.split.
    destruct (PyStr.split_go "/details/" R 0) as [p ps] eqn:E.
    expose_app R. cbn. by rewrite prefix_nil, E. }
  unfold get_id. cbn [cls new py_in py_split mbind result_bind].
  rewrite Hc. cbn [negb].
  unfold index. rewrite Hsp. cbn [mbind result_bind].
  unfold R at 1. rewrite split_go_first_app by done.
  assert (PyStr.split "/" (s +:+ (PyStr.split_go "/details/" t 0).1) !! 0%nat
          = Some s) as ->.
  { unfold PyStr.split.
    pose proof (split_go_first_char "/" s (PyStr.split_go "/details/" t 0).1)
      as H.
    destruct (PyStr.split_go "/" _ 0) as [p ps]. cbn in *. f_equal.
    apply H; [done|]. by apply split_go_first_starts. }
  done.
Qed.

Lemma get_id_archive_details_witness :
  get_id (new InternetArchiveDownloader)
    (JStr ("https://archive.org/details/" +:+ "alice" +:+ "/page/n5"))
  = Ok (set_id (new InternetArchiveDownloader) (IdStr "alice"),
        Some (IdStr "alice")).
Proof. apply (get_id_archive_details "alice" "/page/n5"); reflexivity. Defined.

(** *** The Google Books patterns *)

(** A match at any position makes the search succeed. *)
Lemma search_from_suffix p a b prev g :
  Re.match_here p (last_char prev a) b = Some g →
  ∃ g', Re.search_from p prev (a +:+ b) = Some g'.
Proof.
  revert prev. induction a as [|c a IH]; intros prev H.
  - change ("" +:+ b) with b. cbn [last_char] in H.
    destruct b; cbn [Re.search_from]; rewrite H; eauto.
  - change (String c a +:+ b) with (String c (a +:+ b)).
    cbn [Re.search_from last_char] in *.
    destruct (Re.match_here p prev _); [eauto|]. by apply IH.
Qed.

(** A successful search matched at some position. *)
Lemma search_from_inv p s prev g :
  Re.search_from p prev s = Some g →
  ∃ a b, s = a +:+ b ∧ Re.match_here p (last_char prev a) b = Some g.
Proof.
  revert prev. induction s as [|c s IH]; intros prev H.
  - cbn [Re.search_from] in H. exists "", "". split; [done|].
    cbn [last_char]. by destruct (Re.match_here p prev "").
  - cbn [Re.search_from] in H.
    destruct (Re.match_here p prev (String c s)) as [g0|] eqn:E.
    + exists "", (String c s). split; [done|]. cbn. congruence.
    + destruct (IH _ H) as (a & b & -> & Hm).
      exists (String c a), b. split; [done|]. done.
Qed.

(** A run over a first character outside the class, at the end of a
    pattern, always matches. *)
Lemma run_matches cs c s prev :
  Re.mem c cs = false →
  ∃ g, Re.match_here [Re.NotIn cs true] prev (String c s) = Some g.
Proof.
  intros Hc. cbn [Re.match_here]. rewrite Hc.
  match goal with |- context [match ?x with _ => _ end] => destruct x end;
    eauto.
Qed.

Lemma string_app_assoc a b c : (a +:+ b) +:+ c = a +:+ (b +:+ c).
Proof.
  induction a as [|x a IH]; [done|].
  change ((String x a +:+ b) +:+ c) with (String x ((a +:+ b) +:+ c)).
  by rewrite IH.
Qed.

Lemma last_char_app prev a c :
  last_char prev (a +:+ String c "") = Some c.
Proof.
  revert prev. induction a as [|x a IH]; intros prev; [done|].
  change (String x a +:+ String c "") with (String x (a +:+ String c "")).
  cbn [last_char]. apply IH.
Qed.

(** Where the third pattern matches, the second matches too. *)
Lemma third_implies_second url g :
  Re.re_search (nth 2 patterns []) url = Some g →
  ∃ g', Re.re_search (nth 1 patterns []) url = Some g'.
Proof.
  unfold Re.re_search. intros H.
  apply search_from_inv in H as (a & b & -> & H).
  cbn [nth patterns Re.lits app] in H.
  repeat (destruct b as [|? b]; [discriminate H|];
          cbn [Re.match_here] in H;
          match type of H with
          | (if Ascii.eqb ?x ?y then _ else _) = _ =>
              destruct (Ascii.eqb x y) eqn:?; [|discriminate H]
          end).
  repeat match goal with
         | E : Ascii.eqb _ _ = true |- _ => apply Ascii.eqb_eq in E; subst
         end.
  destruct b as [|c b]; [discriminate H|].
  assert (Re.mem c ["&"%char] = false) as Hc.
  { cbn [Re.match_here] in H. by destruct (Re.mem c ["&"%char]). }
  destruct (run_matches ["&"%char] c b (Some "="%char) Hc) as [g' Hg].
  pose (tail := String "i" (String "d" (String "=" (String c b)))).
  assert (Re.match_here (nth 1 patterns []) (Some "?"%char) tail = Some g')
    as Hm.
  { unfold tail. cbn [nth patterns Re.match_here].
    change (Re.boundary (Some "?"%char)
              (String "i" (String "d" (String "=" (String c b))))) with true.
    cbn [Ascii.eqb Bool.eqb]. exact Hg. }
  assert (last_char None (a +:+ "/books?") = Some "?"%char) as Hl.
  { change "/books?" with ("/books" +:+ String "?" "").
    rewrite <- string_app_assoc. apply last_char_app. }
  rewrite <- Hl in Hm.
  destruct (search_from_suffix _ _ _ _ _ Hm) as [g'' Hs].
  exists g''. rewrite <- Hs. f_equal. by rewrite string_app_assoc.
Qed.

(** X4.  The third Google Books pattern, [/books\?id=([^&]+)], never
    decides an identifier: on every URL the three patterns give what the
    first two alone give, because the second, [\bid=([^&]+)], matches
    wherever the third does and is tried before it. *)
Theorem third_pattern_never_decides (url : string) :
  first_match patterns url = first_match (take 2 patterns) url.
Proof.
  cbn [take patterns first_match].
  destruct (Re.re_search _ url) as [g1|]; [done|].
  destruct (Re.re_search [Re.WordB; _; _; _; _] url) as [g2|] eqn:E2; [done|].
  destruct (Re.re_search (Re.lits "/books?id=" ++ _) url) as [g3|] eqn:E3;
    [|done].
  destruct (third_implies_second url g3 E3) as [g' Hg].
  cbn [nth patterns] in Hg. congruence.
Qed.

(** *** The [books?id=] link *)

Lemma search_lit_absent c p prev x :
  has_char c x = false → Re.search_from (Re.Lit c :: p) prev x = None.
Proof.
  revert prev. induction x as [|c' x IH]; intros prev H; [done|].
  cbn [has_char] in H. apply orb_false_iff in H as [H1 H2].
  cbn [Re.search_from Re.match_here]. rewrite H1. by apply IH.
Qed.

Lemma run_captures cs prev s t :
  PyStr.nonempty s = true →
  all_chars (λ c, negb (Re.mem c cs)) s = true →
  match t with "" => true | String c _ => Re.mem c cs end = true →
  Re.match_here [Re.NotIn cs true] prev (s +:+ t) = Some (Some s).
Proof.
  intros Hn Hs Ht. cbn [Re.match_here].
  match goal with |- ?f (s +:+ t) "" = _ => set (run := f) end.
  cut (∀ s taken, PyStr.nonempty s = true →
         all_chars (λ c, negb (Re.mem c cs)) s = true →
         run (s +:+ t) taken = Some (Some (taken +:+ s))).
  { intros H. by rewrite H. }
  clear s Hn Hs. induction s as [|c s IH]; intros taken Hn Hs; [done|].
  cbn [all_chars] in Hs. apply andb_true_iff in Hs as [Hc Hs].
  apply negb_true_iff in Hc.
  change (String c s +:+ t) with (String c (s +:+ t)).
  unfold run. fold run. rewrite Hc.
  destruct s as [|c' s].
  - change ("" +:+ t) with t.
    assert (run t (taken +:+ String c "") = None) as ->.
    { destruct t as [|c0 t]; [done|]. unfold run. by rewrite Ht. }
    done.
  - rewrite IH by done. by rewrite string_app_assoc.
Qed.

(** X14.  A Google Books link of the [books?id=] form resolves to its
    volume identifier: for a non-empty identifier without [&], alone or
    followed by further [&] parameters (none of them holding a slash),
    [https://books.google.com/books?id=<id>] gives [id]. *)
Theorem get_id_google_books_id (s t : string) :
  PyStr.nonempty s = true →
  has_char "&" s = false →
  has_char "/" (s +:+ t) = false →
  empty_or_starts "&" t = true →
  get_id (new GoogleBooksDownloader)
    (JStr ("https://books.google.com/books?id=" +:+ s +:+ t))
  = Ok (set_id (new GoogleBooksDownloader) (IdStr s), Some (IdStr s)).
Proof.
  intros Hn Hamp Hsl Ht. set (R := s +:+ t).
  assert (Re.re_search (nth 0 patterns [])
            ("https://books.google.com/books?id=" +:+ R) = None) as H1.
  { unfold Re.re_search. expose_app R.
    cbn [nth patterns Re.lits app Re.search_from Re.match_here Ascii.eqb
         Bool.eqb].
    by apply search_lit_absent. }
  assert (Re.re_search (nth 1 patterns [])
            ("https://books.google.com/books?id=" +:+ R) = Some (Some s))
    as H2.
  { unfold Re.re_search. expose_app R.
    cbn [nth patterns].
    remember [Re.NotIn ["&"%char] true] as tail eqn:Htail.
    cbn. subst tail. unfold R. rewrite run_captures; [done|done|..].
    - clear -Hamp. induction s as [|c s IH]; [done|].
      cbn [has_char all_chars] in *.
      apply orb_false_iff in Hamp as [H1 H2]. rewrite IH by done.
        unfold Re.mem. cbn [existsb].
      by rewrite orb_false_r, Ascii.eqb_sym, H1.
    - destruct t as [|c t]; [done|]. cbn [empty_or_starts] in Ht.
      unfold Re.mem. cbn [existsb].
      by rewrite orb_false_r, Ascii.eqb_sym, Ht. }
  unfold get_id. cbn [cls new first_match patterns].
  cbn [nth patterns] in H1, H2. rewrite H1, H2. done.
Qed.


Lemma get_id_google_books_id_witness :
  get_id (new GoogleBooksDownloader)
    (JStr ("https://books.google.com/books?id=" +:+ "XyZ"
             +:+ "&printsec=frontcover"))
  = Ok (set_id (new GoogleBooksDownloader) (IdStr "XyZ"), Some (IdStr "XyZ")).
Proof.
  apply (get_id_google_books_id "XyZ" "&printsec=frontcover"); reflexivity.
Defined.

(** ** Fetching *)

(** What [_download_text] hands back was requested last and answered
    200; it raises nothing. *)
Lemma download_text_post w urls :
  match (_download_text w urls).1 with
  | Ok (Some r, ou) =>
      ∃ url, ou = Some url ∧ SESSION_get w url = Ok r ∧ status_code r = 200
             ∧ last (gets (_download_text w urls).2) = Some url
             ∧ In url urls
  | Ok (None, ou) => ou = None
  | Raise _ => False
  end.
Proof.
  induction urls as [|u urls IH]; [done|]. cbn [_download_text].
  destruct (SESSION_get w u) as [r|e] eqn:Hu; cbn.
  - destruct (status_code r =? 200) eqn:Hs; cbn.
    + exists u. apply Z.eqb_eq in Hs. split_and!; try done. by left.
    + destruct (_download_text w urls) as [[[[r'|] ou]|e] t]; cbn in *;
        try done.
      destruct IH as (url & -> & H1 & H2 & H3 & H4). exists url.
      split_and!; try done; [by destruct (gets t)|by right].
  - destruct (_download_text w urls) as [[[[r'|] ou]|e'] t]; cbn in *;
      try done.
    destruct IH as (url & -> & H1 & H2 & H3 & H4). exists url.
    split_and!; try done; [by destruct (gets t)|by right].
Qed.

(** Text that comes out of the pipeline is not blank. *)
Lemma convert_pdf_to_text_post w pdf t :
  (convert_pdf_to_text w pdf).1 = Ok (Some t) → has_text t = true.
Proof.
  unfold convert_pdf_to_text, extract_text_from_pdf, extract_ocr_from_pdf.
  repeat (eff_step; cbn); congruence.
Qed.

Lemma has_text_strip t :
  has_text t = true → PyStr.nonempty (PyStr.strip t) = true.
Proof. unfold has_text. by intros [_ ?]%andb_true_iff. Qed.

Lemma extract_pdf_post w meta t u :
  (extract_pdf w meta).1 = Ok (Some t, u) →
  has_text t = true
  ∧ ∃ link r, u = Some link ∧ SESSION_get w link = Ok r
              ∧ status_code r = 200
              ∧ gets (extract_pdf w meta).2 = [link]
              ∧ PyStr.nonempty link = true.
Proof.
  unfold extract_pdf, py_get, or_empty.
  repeat (eff_step; cbn -[convert_pdf_to_text]); try done.
  match goal with |- context [convert_pdf_to_text w ?r] =>
    pose proof (convert_pdf_to_text_post w r) as Hp;
    destruct (convert_pdf_to_text_trace w r) as [Hg _];
    destruct (convert_pdf_to_text w r) as [[[t'|]|e] tr]
  end; cbn in *; try done.
  intros [= -> <-]. split; [by apply Hp|].
  match goal with
  | H : SESSION_get w ?l = Ok ?r |- _ => exists l, r
  end.
  match goal with
  | H : negb (status_code ?r =? 200) || _ = false |- _ =>
      apply orb_false_iff in H as [H _]; apply negb_false_iff in H;
      apply Z.eqb_eq in H
  end.
  repeat match goal with
         | H : negb _ = false |- _ => apply negb_false_iff in H
         end.
  split_and!; try done. by rewrite gets_app, Hg.
Qed.

Lemma nonempty_app a b :
  PyStr.nonempty a = true → PyStr.nonempty (a +:+ b) = true.
Proof. by destruct a. Qed.

Lemma candidates_nonempty c i url :
  In url (candidates c i) → PyStr.nonempty url = true.
Proof.
  destruct c; cbn [candidates In]; intros H;
    repeat (destruct H as [<-|H]; [by apply nonempty_app|]); done.
Qed.

Lemma download_post (w : World) (d : downloader) (t : string)
    (u : option string) :
  (download w d).1 = Ok (Some t, u) →
  PyStr.nonempty (PyStr.strip t) = true
  ∧ ∃ url r, u = Some url ∧ SESSION_get w url = Ok r ∧ status_code r = 200
             ∧ last (gets (download w d).2) = Some url
             ∧ PyStr.nonempty url = true.
Proof.
  unfold download. destruct (self_id d) as [i|]; [|done].
  assert (∀ urls, (first_text w urls).1 = Ok (Some t, u) →
    PyStr.nonempty (PyStr.strip t) = true
    ∧ ∃ url r, u = Some url ∧ SESSION_get w url = Ok r ∧ status_code r = 200
               ∧ last (gets (first_text w urls).2) = Some url
               ∧ In url urls) as Hplain.
  { intros urls. unfold first_text.
    pose proof (download_text_post w urls) as Hp.
    destruct (_download_text w urls) as [[[[r|] ou]|e] tr]; cbn in *;
      try done.
    destruct (ok r && PyStr.nonempty (PyStr.strip (text r))) eqn:E; cbn;
      [|done].
    intros [= <- <-]. apply andb_true_iff in E as [_ E]. split; [done|].
    destruct Hp as (url & -> & H1 & H2 & H3 & H4). exists url, r.
    by rewrite app_nil_r. }
  destruct (cls d);
    [intros H; destruct (Hplain _ H) as (? & url & r & ? & ? & ? & ? & Hin);
     split; [done|]; exists url, r; split_and!; try done;
     by eapply candidates_nonempty..|].
  unfold _get_json.
  destruct (SESSION_get w (volume_url w i)) as [r|e]; cbn -[extract_pdf];
    [|done].
  destruct (status_code r =? 200); cbn -[extract_pdf]; [|done].
  destruct (json r) as [m|e]; cbn -[extract_pdf]; [|done].
  destruct (truthy m); cbn -[extract_pdf]; [|done].
  pose proof (extract_pdf_post w m t u) as Hp.
  destruct (extract_pdf w m) as [[[ot ou]|e] tr]; cbn in *; [|done].
  intros [= -> ->].
  destruct (Hp eq_refl) as (Ht & link & r' & -> & H1 & H2 & H3 & H4).
  split; [by apply has_text_strip|]. exists link, r'. split_and!; try done.
  by rewrite H3.
Qed.

(** X5.  Whenever a fetch returns text, the text is not blank and comes
    with a URL, and that URL is the last one requested and was answered
    with status 200. *)
Theorem download_returns_text (w : World) (d : downloader) (t : string)
    (u : option string) :
  (download w d).1 = Ok (Some t, u) →
  PyStr.nonempty (PyStr.strip t) = true
  ∧ ∃ url r, u = Some url ∧ SESSION_get w url = Ok r ∧ status_code r = 200
             ∧ last (gets (download w d).2) = Some url.
Proof.
  intros H.
  destruct (download_post w d t u H) as (Ht & url & r & Hu & Hg & Hs & Hl & _).
  split; [done|]. by exists url, r.
Qed.

Lemma download_returns_text_witness :
  PyStr.nonempty (PyStr.strip Scenario.pride_text) = true
  ∧ ∃ url r, Some Scenario.pride_1 = Some url
             ∧ SESSION_get Scenario.second_hit url = Ok r
             ∧ status_code r = 200
             ∧ last (gets (download Scenario.second_hit Scenario.pride).2)
               = Some url.
Proof.
  exact (download_returns_text Scenario.second_hit Scenario.pride
           Scenario.pride_text (Some Scenario.pride_1) eq_refl).
Defined.


Lemma download_unavailable_witness :
  (download Scenario.google_unavailable Scenario.xyz).1 = Ok (None, None)
  ∧ gets (download Scenario.google_unavailable Scenario.xyz).2
    = [volume_url Scenario.google_unavailable (IdStr "XyZ")].
Proof.
  apply (download_unavailable Scenario.google_unavailable Scenario.xyz
           (IdStr "XyZ") (Scenario.resp_json Scenario.meta_unavailable)
           [("kind", JStr "books#volume");
            ("accessInfo",
             JDict [("pdf", JDict [("isAvailable", JBool false)])])]
           [("pdf", JDict [("isAvailable", JBool false)])]
           [("isAvailable", JBool false)]); try reflexivity.
  left. reflexivity.
Defined.

(** What [extract_pdf] requests: nothing, or the link the metadata
    gives for an available PDF. *)
Lemma extract_pdf_requests w meta :
  gets (extract_pdf w meta).2 = []
  ∨ ∃ access pdf_meta available link,
      py_get meta "accessInfo" = Ok access
      ∧ py_get (or_empty access) "pdf" = Ok pdf_meta
      ∧ py_get (or_empty pdf_meta) "isAvailable" = Ok available
      ∧ truthy available = true
      ∧ py_get (or_empty pdf_meta) "downloadLink" = Ok (JStr link)
      ∧ gets (extract_pdf w meta).2 = [link].
Proof.
  unfold extract_pdf.
  destruct (py_get meta "accessInfo") as [access|e] eqn:H1; [|by left].
  cbn [liftR mbind Eff_bind].
  destruct (py_get (or_empty access) "pdf") as [pdf_meta|e] eqn:H2;
    [|by left].
  cbn [liftR mbind Eff_bind].
  destruct (py_get (or_empty pdf_meta) "isAvailable") as [available|e] eqn:H3;
    [|by left].
  cbn [liftR mbind Eff_bind].
  destruct (truthy available) eqn:Ha; cbn [negb]; [|by left].
  destruct (py_get (or_empty pdf_meta) "downloadLink") as [dl|e] eqn:H5;
    [|by left].
  cbn [liftR mbind Eff_bind].
  destruct (negb (truthy dl)); [by left|].
  destruct dl as [| | | |link| |]; try by left.
  right. exists access, pdf_meta, available, link. split_and!; try done.
  destruct (SESSION_get w link) as [pdf|[]]; try done.
  cbn -[convert_pdf_to_text].
  destruct (negb (status_code pdf =? 200)
            || (Z.of_nat (String.length (content pdf)) <? 50000));
    cbn -[convert_pdf_to_text]; [done|].
  destruct (convert_pdf_to_text_trace w pdf) as [Hg _].
  destruct (convert_pdf_to_text w pdf) as [[t|e] tr]; cbn in *;
    by rewrite ?gets_app, Hg.
Qed.

(** X13.  The Google Books fetch asks for the volume's metadata first
    and makes at most one more request, for the PDF; it requests a PDF
    only when the metadata marks one available, and only from the
    download link the metadata gives. *)
Theorem download_google_requests (w : World) (d : downloader) (i : pyid) :
  cls d = GoogleBooksDownloader → self_id d = Some i →
  gets (download w d).2 = [volume_url w i]
  ∨ ∃ r meta access pdf_meta available link,
      SESSION_get w (volume_url w i) = Ok r ∧ status_code r = 200
      ∧ json r = Ok meta
      ∧ py_get meta "accessInfo" = Ok access
      ∧ py_get (or_empty access) "pdf" = Ok pdf_meta
      ∧ py_get (or_empty pdf_meta) "isAvailable" = Ok available
      ∧ truthy available = true
      ∧ py_get (or_empty pdf_meta) "downloadLink" = Ok (JStr link)
      ∧ gets (download w d).2 = [volume_url w i; link].
Proof.
  intros Hc Hi. unfold download, _get_json. rewrite Hi, Hc.
  destruct (SESSION_get w (volume_url w i)) as [r|e] eqn:Hr;
    cbn -[extract_pdf]; [|by left].
  destruct (status_code r =? 200) eqn:Hs; cbn -[extract_pdf]; [|by left].
  destruct (json r) as [m|e] eqn:Hj; cbn -[extract_pdf]; [|by left].
  destruct (truthy m); cbn -[extract_pdf]; [|by left].
  destruct (extract_pdf_requests w m)
    as [Hg|(access & pdf_meta & available & link & H1 & H2 & H3 & H4 & H5 & Hg)].
  - left. destruct (extract_pdf w m) as [[?|?] tr]; cbn in *; by rewrite Hg.
  - right. exists r, m, access, pdf_meta, available, link.
    apply Z.eqb_eq in Hs. split_and!; try done.
    destruct (extract_pdf w m) as [[?|?] tr]; cbn in *; by rewrite Hg.
Qed.

Lemma download_google_requests_witness :
  gets (download Scenario.google_captcha Scenario.xyz).2
  = [volume_url Scenario.google_captcha (IdStr "XyZ")]
  ∨ ∃ r meta access pdf_meta available link,
      SESSION_get Scenario.google_captcha
        (volume_url Scenario.google_captcha (IdStr "XyZ")) = Ok r
      ∧ status_code r = 200
      ∧ json r = Ok meta
      ∧ py_get meta "accessInfo" = Ok access
      ∧ py_get (or_empty access) "pdf" = Ok pdf_meta
      ∧ py_get (or_empty pdf_meta) "isAvailable" = Ok available
      ∧ truthy available = true
      ∧ py_get (or_empty pdf_meta) "downloadLink" = Ok (JStr link)
      ∧ gets (download Scenario.google_captcha Scenario.xyz).2
        = [volume_url Scenario.google_captcha (IdStr "XyZ"); link].
Proof.
  apply (download_google_requests Scenario.google_captcha Scenario.xyz
           (IdStr "XyZ")); reflexivity.
Defined.

(** ** The batch *)

(** What a request that goes on carries. *)
Lemma plan_post lower d b :
  plan lower = Ok (Some (d, b)) →
  self_id d = Some b.1.1.1 ∧ id_typed (cls d) b.1.1.1 = true.
Proof.
  intros Hp. destruct (plan_inv _ _ _ Hp) as (d0 & _ & _ & Hg & _).
  destruct (get_id_typed _ _ _ _ Hg) as (Hc & Hi & Ht).
  by rewrite Hc.
Qed.

Lemma new_row_complete n c i f :
  id_typed c i = true →
  truthy_str (f_source_url f) = true →
  PyStr.nonempty (PyStr.strip (f_content f)) = true →
  complete_row (new_row n c i f) = true.
Proof.
  intros Hi Hu Hx. unfold complete_row. cbn.
  rewrite Hu, Hx. by destruct c, i.
Qed.

(** One request leaves the table as it is or adds one complete row. *)
Lemma process_record_appends w total idx lower db :
  (process_record w total idx lower db).2 = db
  ∨ ∃ r, (process_record w total idx lower db).2 = db ++ [r]
         ∧ complete_row r = true.
Proof.
  destruct (process_record_row w total idx lower db)
    as [H|(d & sid & u & text & f & Hp & Hd & Hf & H)]; [by left|].
  right. eexists. split; [exact H|].
  destruct (plan_post _ _ _ Hp) as [_ Hi].
  destruct (download_post w d text u Hd)
    as (Hx & url & r & -> & _ & _ & _ & Hu).
  destruct (bind_fields_inv _ _ _ _ _ _ _ Hf) as (a & t & c & _ & _ & _ & ->).
  by apply new_row_complete.
Qed.

Lemma process_from_appends w total idx data db :
  ∃ added, (process_from w total idx data db).2 = db ++ added
           ∧ Forall (λ r, complete_row r = true) added
           ∧ (length added ≤ length data)%nat.
Proof.
  revert idx db. induction data as [|it data IH]; intros idx db.
  { exists []. by rewrite app_nil_r. }
  cbn [process_from]. unfold process_item.
  destruct (lower_keys it) as [lower|e0].
  2:{ exists []. rewrite app_nil_r. split_and!; [done|done|cbn; lia]. }
  unfold mbind, M_bind, liftE, liftR. cbv beta iota.
  pose proof (process_record_appends w total idx lower db) as H1.
  destruct (process_record w total idx lower db)
    as [[[[]|e] t] db1]; cbn [fst snd] in *.
  - destruct (IH (idx + 1) db1) as (added & H2 & H3 & H4).
    destruct (process_from w total (idx + 1) data db1) as [[r t'] db2].
    cbn [fst snd length] in *. subst db2.
    destruct H1 as [->|(r0 & -> & Hr)].
    + exists added. split_and!; [done|done|lia].
    + exists (r0 :: added). rewrite <- app_assoc. split_and!; [done| |].
      * by constructor.
      * cbn. lia.
  - destruct H1 as [->|(r0 & -> & Hr)].
    + exists []. rewrite app_nil_r. split_and!; [done|done|cbn; lia].
    + exists [r0]. split_and!; [done|by repeat constructor|cbn; lia].
Qed.

(** X6.  A batch only appends: the table after it is the table before
    it followed by new rows, at most one per element of the batch, so no
    existing row is changed, moved or deleted, whatever the batch holds
    and whether it runs to its end or raises.  Every new row has exactly
    one identifier column set, with a value of its source's type, a
    source_url that is not empty and content that is not blank. *)
Theorem process_input_appends (w : World) (data : list item) (db : store) :
  ∃ added, (process_input w data db).2 = db ++ added
           ∧ Forall (λ r, complete_row r = true) added
           ∧ (length added ≤ length data)%nat.
Proof. unfold process_input. apply process_from_appends. Qed.

(** Lowering a key twice is lowering it once. *)
Lemma lower_char_idem c : PyStr.lower_char (PyStr.lower_char c) = PyStr.lower_char c.
Proof. destruct c as [[] [] [] [] [] [] [] []]; reflexivity. Qed.

Lemma lower_idem s : PyStr.lower (PyStr.lower s) = PyStr.lower s.
Proof.
  induction s as [|c s IH]; [done|]. cbn [PyStr.lower].
  by rewrite lower_char_idem, IH.
Qed.

Lemma lower_items_lowered_go items (m : gmap string jvalue) :
  fold_left (λ m kv, <[PyStr.lower kv.1 := kv.2]> m)
    ((λ kv, (PyStr.lower kv.1, kv.2)) <$> items) m
  = fold_left (λ m kv, <[PyStr.lower kv.1 := kv.2]> m) items m.
Proof.
  revert m. induction items as [|[k v] items IH]; intros m; [done|].
  cbn [fmap list_fmap fold_left fst snd].
  rewrite lower_idem. apply IH.
Qed.

(** X7.  Field names are matched without regard to case: a record whose
    keys are written in any mix of upper and lower case is processed
    exactly as the record with its keys in lower case. *)
Theorem process_item_case_insensitive (w : World) (total idx : Z) (it : item) :
  process_item w total idx (lowered it) = process_item w total idx it.
Proof.
  unfold process_item. destruct it; try done.
  cbn [lowered lower_keys]. unfold lower_items.
  by rewrite lower_items_lowered_go.
Qed.








(** A value that cannot be bound stops the batch after the fetch. *)
Example process_record_list_author :
  let lower : gmap string jvalue :=
    {[ "url" := JStr "https://www.gutenberg.org/ebooks/1342";
       "title" := JStr "Pride and Prejudice";
       "author" := JList [JStr "Jane Austen"] ]} in
  let r := process_record Scenario.second_hit 1 1 lower init_database in
  r.1.1 = Raise ProgrammingError
  ∧ gets r.1.2 = [Scenario.pride_0; Scenario.pride_1]
  ∧ r.2 = init_database.
Proof. vm_compute. repeat split; reflexivity. Qed.

Lemma process_input_unique_witness :
  unique_ids
    (process_input Scenario.second_hit
       [Scenario.pride_item; Scenario.pride_item] init_database).2.
Proof.
  apply (process_input_unique Scenario.second_hit
           [Scenario.pride_item; Scenario.pride_item] init_database).
  intros c. apply NoDup_nil_2.
Defined.

(** ** Startup *)

(** X9.  [check_dependencies] exits with status 1 exactly when pdfminer
    or requests (with urllib3) cannot be imported, and then it has logged
    errors and no OCR warning; a missing tesseract, Ghostscript or
    ocrmypdf never makes it exit.  The shared session is set exactly when
    requests and urllib3 can be imported. *)
Theorem check_dependencies_exits (h : Host) (w : World) :
  (check_dependencies h w).1
  = Ok (if required_ok h then Ready else Exit 1,
        importable h "requests.adapters" && importable h "urllib3.util.retry")
  ∧ logs_error (check_dependencies h w).2 = negb (required_ok h)
  ∧ (required_ok h = false → warns_ocr (check_dependencies h w).2 = false).
Proof. startup_cases h w; repeat split; try reflexivity; discriminate. Qed.

(** With both OCR programs installed, a PDF without text is sent to
    OCR. *)
Lemma ocr_runs_capable w pdf :
  structural w (content pdf) = None → ocr_capable w = true →
  ocr_runs (convert_pdf_to_text w pdf).2 = [content pdf].
Proof.
  unfold convert_pdf_to_text, extract_text_from_pdf, extract_ocr_from_pdf,
    structural, ocr_capable.
  destruct (extract_text w (content pdf)) as [t|e]; [destruct (has_text t)|];
    cbn; try done;
    (destruct (which w "tesseract"); cbn; [|done]);
    (destruct (which w "gswin64c"); cbn; [|destruct (which w "gs"); cbn; [|done]]);
    (destruct (ocrmypdf w (content pdf)) as [out|e']; cbn; [|done]);
    (destruct (extract_text w out) as [t'|e'']; [destruct (has_text t')|]);
    done.
Qed.

(** X10.  The start-up warning and the OCR gate of the pipeline agree.
    When the required packages are there, [check_dependencies] logs the
    warning that OCR will be unavailable exactly when tesseract,
    Ghostscript or ocrmypdf is missing; so after a start without that
    warning every PDF in which pdfminer finds no text is sent to OCR. *)
Theorem check_dependencies_warns (h : Host) (w : World) :
  required_ok h = true →
  warns_ocr (check_dependencies h w).2
  = negb (ocr_capable w && importable h "ocrmypdf")
  ∧ (warns_ocr (check_dependencies h w).2 = false →
     ∀ pdf, structural w (content pdf) = None →
            ocr_runs (convert_pdf_to_text w pdf).2 = [content pdf]).
Proof.
  intros Hr.
  assert (warns_ocr (check_dependencies h w).2
          = negb (ocr_capable w && importable h "ocrmypdf")) as Hw.
  { revert Hr. startup_cases h w; intros Hr; try reflexivity; discriminate. }
  split; [done|]. rewrite Hw. intros Hc pdf Hs.
  apply ocr_runs_capable; [done|].
  apply negb_false_iff in Hc. by apply andb_true_iff in Hc as [? _].
Qed.

Lemma check_dependencies_warns_witness :
  warns_ocr (check_dependencies Scenario2.no_ocrmypdf Scenario.scanned).2
  = negb (ocr_capable Scenario.scanned
          && importable Scenario2.no_ocrmypdf "ocrmypdf")
  ∧ (warns_ocr (check_dependencies Scenario2.no_ocrmypdf Scenario.scanned).2
     = false →
     ∀ pdf, structural Scenario.scanned (content pdf) = None →
            ocr_runs (convert_pdf_to_text Scenario.scanned pdf).2
            = [content pdf]).
Proof.
  apply (check_dependencies_warns Scenario2.no_ocrmypdf Scenario.scanned).
  reflexivity.
Defined.

Example startup_without_ocrmypdf :
  check_dependencies Scenario2.no_ocrmypdf Scenario.scanned
  = (Ok (Ready, true),
     [EvWhich "tesseract"; EvWhich "gswin64c"; EvWhich "gs";
      EvLog WARNING "Missing optional dependencies:" [];
      EvLog WARNING "  - %s"
        [AStr "ocrmypdf (pip install ocrmypdf - OCR will be unavailable)"];
      EvLog WARNING
        "PDF text extraction will work, but OCR fallback will be unavailable."
        []]).
Proof. reflexivity. Qed.

Example startup_without_pdfminer :
  check_dependencies Scenario2.no_pdfminer Scenario.offline
  = (Ok (Exit 1, true),
     [EvWhich "tesseract"; EvWhich "gswin64c"; EvWhich "gs";
      EvLog ERROR "Missing required dependencies:" [];
      EvLog ERROR "  - %s" [AStr "pdfminer.six (pip install pdfminer.six)"]]).
Proof. reflexivity. Qed.
